(** * smpain_HR maintenance scripts: a shallow embedding

    The three scripts under [scripts/] are modelled here:
    - [auto-date-updater.py]   (module [DateUpdater]),
    - [auto-detect-progress.py] (module [ProgressDetector]),
    - [sync-progress.py]        (module [ProgressSync]).

    A Python [str] is a list of Unicode code points ([list N]); the regular
    expressions of the scripts are written in a small abstract syntax and run
    by a backtracking matcher that follows the [re] module (leftmost match,
    greedy and lazy repetition, ordered alternation, capture groups,
    replacement templates). *)

From stdpp Require Import base numbers list strings gmap.
From Stdlib Require Import ZArith QArith Qround Qabs Lia.

#[local] Open Scope Z_scope.
#[local] Open Scope nat_scope.

(** ** Python strings *)

Module Py.

Abbreviation pystr := (list N).

(** The bytes of a literal. *)
Fixpoint bytes_of (s : string) : list N :=
  match s with
  | EmptyString => []
  | String a s' => Ascii.N_of_ascii a :: bytes_of s'
  end.

(** UTF-8 decoding, so that the string literals of the scripts can be
    written as they are in the source. *)
Fixpoint utf8 (bs : list N) : pystr :=
  match bs with
  | [] => []
  | b :: r =>
      if (b <? 128)%N then b :: utf8 r
      else if (b <? 224)%N then
        match r with
        | b1 :: r1 => ((b - 192) * 64 + (b1 - 128))%N :: utf8 r1
        | _ => []
        end
      else if (b <? 240)%N then
        match r with
        | b1 :: b2 :: r2 =>
            ((b - 224) * 4096 + (b1 - 128) * 64 + (b2 - 128))%N :: utf8 r2
        | _ => []
        end
      else
        match r with
        | b1 :: b2 :: b3 :: r3 =>
            ((b - 240) * 262144 + (b1 - 128) * 4096 + (b2 - 128) * 64
             + (b3 - 128))%N :: utf8 r3
        | _ => []
        end
  end.

Definition lit (s : string) : pystr := utf8 (bytes_of s).

Definition nl : N := 10%N.

(** [p] is a prefix of [s] ([s.startswith(p)]). *)
Fixpoint starts_with (p s : pystr) : bool :=
  match p, s with
  | [], _ => true
  | a :: p', b :: s' => N.eqb a b && starts_with p' s'
  | _ :: _, [] => false
  end.

(** [p in s] on strings. *)
Fixpoint contains (p s : pystr) : bool :=
  starts_with p s ||
  match s with
  | [] => false
  | _ :: s' => contains p s'
  end.

Fixpoint ends_with_aux (p s : pystr) (n : nat) {struct n} : bool :=
  match n with
  | O => starts_with p s && Nat.eqb (length p) (length s)
  | S n' => match s with
            | [] => false
            | _ :: s' => ends_with_aux p s' n'
            end
  end.

(** [s.endswith(p)]. *)
Definition ends_with (p s : pystr) : bool :=
  Nat.leb (length p) (length s) && ends_with_aux p s (length s - length p).

(** [sep.join(l)]. *)
Fixpoint join (sep : pystr) (l : list pystr) : pystr :=
  match l with
  | [] => []
  | [x] => x
  | x :: l' => x ++ sep ++ join sep l'
  end.

(** Decimal digits of [n], least significant first, [k] of them. *)
Fixpoint digits_rev (k : nat) (n : N) : pystr :=
  match k with
  | O => []
  | S k' => (48 + n mod 10)%N :: digits_rev k' (n / 10)
  end.

(** [n] in decimal, zero-padded to [k] digits ([%02d]; [%Y] for a year
    of four digits). *)
Definition zpad (k : nat) (n : N) : pystr := rev (digits_rev k n).

Fixpoint str_N_go (fuel : nat) (n : N) (acc : pystr) : pystr :=
  match fuel with
  | O => acc
  | S fuel' =>
      let acc' := (48 + n mod 10)%N :: acc in
      if (n <? 10)%N then acc' else str_N_go fuel' (n / 10) acc'
  end.

(** [str(n)] for a natural number. *)
Definition str_nat (n : nat) : pystr :=
  str_N_go (S (N.to_nat (N.log2 (N.of_nat n)))) (N.of_nat n) [].

(** What [datetime.now()] gives: the calendar fields that the scripts
    print, and [stamp], the position of the instant on the time line (in
    microseconds), which is what comparisons and [timedelta] use. *)
Record datetime := {
  year : N; month : N; day : N; hour : N; minute : N;
  stamp : Z
}.

Definition fmt_Y (t : datetime) : pystr := zpad 4 (year t).
Definition fmt_m (t : datetime) : pystr := zpad 2 (month t).
Definition fmt_d (t : datetime) : pystr := zpad 2 (day t).

(** [strftime('%Y.%m.%d')] *)
Definition strftime_dot (t : datetime) : pystr :=
  fmt_Y t ++ lit "." ++ fmt_m t ++ lit "." ++ fmt_d t.

(** [strftime('%Y-%m-%d')] *)
Definition strftime_iso (t : datetime) : pystr :=
  fmt_Y t ++ lit "-" ++ fmt_m t ++ lit "-" ++ fmt_d t.

(** [strftime('%Y-%m-%d %H:%M')] *)
Definition strftime_minute (t : datetime) : pystr :=
  strftime_iso t ++ lit " " ++ zpad 2 (hour t) ++ lit ":" ++ zpad 2 (minute t).

(** The characters [\s] matches in a [str] pattern ([str.isspace]). *)
Definition is_space (c : N) : bool :=
  ((9 <=? c) && (c <=? 13) || (28 <=? c) && (c <=? 32) ||
   (c =? 133) || (c =? 160) || (c =? 5760) ||
   (8192 <=? c) && (c <=? 8202) || (c =? 8232) || (c =? 8233) ||
   (c =? 8239) || (c =? 8287) || (c =? 12288))%N.

(** First code point of each run of ten decimal digits (Unicode 14.0,
    category Nd), apart from the mathematical digits. *)
Definition decimal_runs : list N :=
  [48; 1632; 1776; 1984; 2406; 2534; 2662; 2790; 2918; 3046; 3174; 3302;
   3430; 3558; 3664; 3792; 3872; 4160; 4240; 6112; 6160; 6470; 6608; 6784;
   6800; 6992; 7088; 7232; 7248; 42528; 43216; 43264; 43472; 43504; 43600;
   44016; 65296; 66720; 68912; 69734; 69872; 69942; 70096; 70384; 70736;
   70864; 71248; 71360; 71472; 71904; 72016; 72784; 73040; 73120; 92768;
   92864; 93008; 123200; 123632; 125264; 130032]%N.

(** The characters [\d] matches in a [str] pattern. *)
Definition is_decimal (c : N) : bool :=
  existsb (fun b => (b <=? c) && (c <? b + 10))%N decimal_runs ||
  ((120782 <=? c) && (c <=? 120831))%N.

(** *** Floating point

    A [float] is modelled by the rational number it holds.  Every result
    that arises in the scripts lies far inside the normal range of
    binary64, where a double has 53 significant bits: [rnd] rounds a
    rational to the nearest such number, ties to the even significand. *)

(** Nearest integer, ties to even. *)
Definition rne (q : Q) : Z :=
  let f := Qfloor q in
  match (q - inject_Z f ?= 1 # 2)%Q with
  | Lt => f
  | Gt => (f + 1)%Z
  | Eq => if Z.even f then f else (f + 1)%Z
  end.

Definition two_pow (e : Z) : Q :=
  if (0 <=? e)%Z then inject_Z (2 ^ e) else (/ inject_Z (2 ^ (- e)))%Q.

(** The exponent [e] of the last bit: [2^52 <= q / 2^e < 2^53], for
    positive [q]. *)
Definition ulp_exponent (q : Q) : Z :=
  let d := (Z.log2 (Qnum q) - Z.log2 (Zpos (Qden q)))%Z in
  if Qle_bool (two_pow d) q then (d - 52)%Z else (d - 53)%Z.

Definition rnd_pos (q : Q) : Q :=
  let e := ulp_exponent q in
  Qred (inject_Z (rne (q / two_pow e)) * two_pow e).

Definition rnd (q : Q) : Q :=
  match Qnum q with
  | Z0 => 0%Q
  | Zpos _ => rnd_pos q
  | Zneg _ => Qred (- rnd_pos (- q))
  end.

(** [a / b] on integers (true division, correctly rounded), and [x * y] on
    floats. *)
Definition int_truediv (a b : Z) : Q := rnd (inject_Z a / inject_Z b).
Definition float_mul (x y : Q) : Q := rnd (x * y).

(** [round(x, 1)]: the decimal with one digit after the point nearest to
    the exact value of [x], ties to the even digit, read back as a float. *)
Definition tenths (x : Q) : Z := rne (10 * x).
Definition round1 (x : Q) : Q := rnd (inject_Z (tenths x) / 10).

(** Numbers: [int] or [float]. *)
Inductive pynum :=
  | PyInt (z : Z)
  | PyFloat (x : Q).

(** [str] of a number.  For a float this is written for the results of
    [round1], which print with one digit after the point. *)
Definition str_num (v : pynum) : pystr :=
  match v with
  | PyInt z => (if (z <? 0)%Z then lit "-" else []) ++ str_nat (Z.abs_nat z)
  | PyFloat x =>
      let n := tenths x in
      (if (n <? 0)%Z then lit "-" else []) ++
      str_nat (Z.abs_nat n / 10) ++ lit "." ++ str_nat (Z.abs_nat n mod 10)
  end.

End Py.

Import Py.

(** ** The [re] module *)

Module Re.

(** Character classes used by the scripts. *)
Inductive cls :=
  | Dot       (* [.]  : anything but a newline *)
  | Space     (* [\s] *)
  | Digit.    (* [\d] *)

Definition in_cls (p : cls) (c : N) : bool :=
  match p with
  | Dot => negb (c =? nl)%N
  | Space => is_space c
  | Digit => is_decimal c
  end.

(** Patterns.  [Rep greedy p lo hi] is [p{lo,hi}] ([hi = None]: no upper
    bound), lazy when [greedy] is false; [Group i r] is the capture group
    number [i]. *)
Inductive re :=
  | Lit (l : pystr)
  | Cls (p : cls)
  | Seq (r1 r2 : re)
  | Alt (r1 r2 : re)
  | Rep (greedy : bool) (p : cls) (lo : nat) (hi : option nat)
  | Group (i : nat) (r : re)
  | Bos       (* [^] without MULTILINE *)
  | Eos.      (* [$] without MULTILINE *)

Declare Scope re_scope.
Delimit Scope re_scope with re.
Bind Scope re_scope with re.
Infix "⋅" := Seq (at level 41, right associativity) : re_scope.
Infix "∣" := Alt (at level 42, right associativity) : re_scope.

Definition Star (p : cls) : re := Rep true p 0 None.
Definition LazyStar (p : cls) : re := Rep false p 0 None.
Definition LazyPlus (p : cls) : re := Rep false p 1 None.
Definition Exactly (p : cls) (n : nat) : re := Rep true p n (Some n).
Definition Between (p : cls) (lo hi : nat) : re := Rep true p lo (Some hi).

Abbreviation caps := (gmap nat pystr).

Section Matcher.
Context {R : Type}.

(** A continuation receives whether the position is still the beginning
    of the string, the remaining input, and the captures so far. *)
Abbreviation kont := (bool -> pystr -> caps -> option R).

Definition more (hi : option nat) : bool :=
  match hi with
  | Some O => false
  | _ => true
  end.

Definition dec_hi (hi : option nat) : option nat :=
  match hi with
  | Some n => Some (pred n)
  | None => None
  end.

Definition or_else (a : option R) (b : unit -> option R) : option R :=
  match a with
  | Some x => Some x
  | None => b tt
  end.

(** One repetition operator over a character class, by recursion on the
    input: the engine prefers one more character when greedy and prefers
    to stop when lazy, and backtracks to the other choice. *)
Fixpoint rep (greedy : bool) (p : cls) (lo : nat) (hi : option nat)
    (bos : bool) (s : pystr) (c : caps) (k : kont) : option R :=
  let stop (_ : unit) :=
    match lo with
    | O => k bos s c
    | S _ => None
    end in
  let step (_ : unit) :=
    match s with
    | ch :: s' =>
        if in_cls p ch && more hi
        then rep greedy p (pred lo) (dec_hi hi) false s' c k
        else None
    | [] => None
    end in
  if greedy then or_else (step tt) stop else or_else (stop tt) step.

Fixpoint run (r : re) (bos : bool) (s : pystr) (c : caps) (k : kont)
    : option R :=
  match r with
  | Lit l =>
      if starts_with l s
      then k (bos && Nat.eqb (length l) 0) (drop (length l) s) c
      else None
  | Cls p =>
      match s with
      | ch :: s' => if in_cls p ch then k false s' c else None
      | [] => None
      end
  | Seq r1 r2 => run r1 bos s c (fun b s' c' => run r2 b s' c' k)
  | Alt r1 r2 => or_else (run r1 bos s c k) (fun _ => run r2 bos s c k)
  | Rep g p lo hi => rep g p lo hi bos s c k
  | Group i r1 =>
      run r1 bos s c
        (fun b s' c' => k b s' (<[i := take (length s - length s') s]> c'))
  | Bos => if bos then k bos s c else None
  | Eos =>
      match s with
      | [] => k bos s c
      | [ch] => if (ch =? nl)%N then k bos s c else None
      | _ => None
      end
  end.
End Matcher.

(** [pattern.match] at one position: the rest of the input after the match
    and the captured groups. *)
Definition match_at (r : re) (bos : bool) (s : pystr) : option (pystr * caps) :=
  run r bos s ∅ (fun _ s' c => Some (s', c)).

(** Number of capture groups of a pattern. *)
Fixpoint groups (r : re) : nat :=
  match r with
  | Seq r1 r2 | Alt r1 r2 => groups r1 + groups r2
  | Group _ r1 => S (groups r1)
  | _ => 0
  end.

(** Outcome of a call that may raise. *)
Inductive pyresult (A : Type) :=
  | Returns (a : A)
  | Raises.
Arguments Returns {A} a.
Arguments Raises {A}.

Definition bind {A B} (x : pyresult A) (f : A -> pyresult B) : pyresult B :=
  match x with
  | Returns a => f a
  | Raises => Raises
  end.

(** *** Replacement templates ([sre_parse.parse_template]) *)

Inductive titem :=
  | TChr (c : N)
  | TGroup (i : nat).

Definition is_octal (c : N) : bool := ((48 <=? c) && (c <=? 55))%N.
Definition is_ascii_digit (c : N) : bool := ((48 <=? c) && (c <=? 57))%N.
Definition is_ascii_letter (c : N) : bool :=
  ((65 <=? c) && (c <=? 90) || (97 <=? c) && (c <=? 122))%N.
Definition dval (c : N) : N := (c - 48)%N.

(** [\a \b \f \n \r \t \v \\]. *)
Definition escape_char (c : N) : option N :=
  (if c =? 97 then Some 7 else if c =? 98 then Some 8
   else if c =? 102 then Some 12 else if c =? 110 then Some 10
   else if c =? 114 then Some 13 else if c =? 116 then Some 9
   else if c =? 118 then Some 11 else if c =? 92 then Some 92
   else None)%N.

Definition addgroup (ngroups : nat) (i : N) (k : pyresult (list titem))
    : pyresult (list titem) :=
  if Nat.leb (N.to_nat i) ngroups
  then bind k (fun t => Returns (TGroup (N.to_nat i) :: t))
  else Raises.

(** The digits of a [\g<number>] reference, up to the closing [>]. *)
Fixpoint group_number (s : pystr) (acc : N) (seen : bool) : option N :=
  match s with
  | [] => None
  | c :: s' =>
      if (c =? 62)%N then (if seen then Some acc else None)
      else if is_ascii_digit c then group_number s' (acc * 10 + dval c)%N true
      else None
  end.

Fixpoint after_gt (s : pystr) : pystr :=
  match s with
  | [] => []
  | c :: s' => if (c =? 62)%N then s' else after_gt s'
  end.

(** A backslash followed by digits is a group reference of one or two
    digits, unless three octal digits follow (or the first is [0]): then it
    is the character with that octal code.  The patterns of the scripts have
    no named group, so [\g<name>] is modelled for numbers only. *)
Fixpoint parse_template_go (ngroups : nat) (fuel : nat) (s : pystr)
    : pyresult (list titem) :=
  match fuel with
  | O => Returns []
  | S fuel' =>
  let continue s' := parse_template_go ngroups fuel' s' in
  let chr c s' := bind (continue s') (fun t => Returns (TChr c :: t)) in
  match s with
  | [] => Returns []
  | c :: s1 =>
      if negb (c =? 92)%N then chr c s1
      else
        match s1 with
        | [] => Raises
        | e :: s2 =>
            if (e =? 103)%N then
              match s2 with
              | lt :: s3 =>
                  if (lt =? 60)%N then
                    match group_number s3 0%N false with
                    | Some i => addgroup ngroups i (continue (after_gt s3))
                    | None => Raises
                    end
                  else Raises
              | [] => Raises
              end
            else if (e =? 48)%N then
              match s2 with
              | d1 :: s3 =>
                  if is_octal d1 then
                    match s3 with
                    | d2 :: s4 =>
                        if is_octal d2
                        then chr (N.land (dval d1 * 8 + dval d2) 255) s4
                        else chr (dval d1) s3
                    | [] => chr (dval d1) s3
                    end
                  else chr 0%N s2
              | [] => chr 0%N s2
              end
            else if is_ascii_digit e then
              match s2 with
              | d1 :: s3 =>
                  if is_ascii_digit d1 then
                    match s3 with
                    | d2 :: s4 =>
                        if is_octal e && is_octal d1 && is_octal d2 then
                          let v := (dval e * 64 + dval d1 * 8 + dval d2)%N in
                          if (255 <? v)%N then Raises else chr v s4
                        else addgroup ngroups (dval e * 10 + dval d1) (continue s3)
                    | [] => addgroup ngroups (dval e * 10 + dval d1) (continue s3)
                    end
                  else addgroup ngroups (dval e) (continue s2)
              | [] => addgroup ngroups (dval e) (continue s2)
              end
            else
              match escape_char e with
              | Some v => chr v s2
              | None =>
                  if is_ascii_letter e then Raises
                  else bind (continue s2) (fun t => Returns (TChr 92 :: TChr e :: t))
              end
        end
  end
  end.

Definition parse_template (ngroups : nat) (s : pystr) : pyresult (list titem) :=
  parse_template_go ngroups (length s) s.

(** [match.expand]: a group that did not take part expands to nothing. *)
Fixpoint expand (t : list titem) (whole : pystr) (c : caps) : pystr :=
  match t with
  | [] => []
  | TChr ch :: t' => ch :: expand t' whole c
  | TGroup O :: t' => whole ++ expand t' whole c
  | TGroup i :: t' => default [] (c !! i) ++ expand t' whole c
  end.

(** *** [re.sub], [re.findall], [re.search]

    The input is scanned from left to right; after a match the scan resumes
    at its end ([skip] counts the characters of the match still to pass).
    Every pattern of the scripts starts with a literal, so no match is
    empty; an empty match would insert the replacement and move on by one
    character. *)

Fixpoint sub_go (r : re) (t : list titem) (bos : bool) (skip : nat)
    (s : pystr) : pystr :=
  match skip with
  | S k =>
      match s with
      | [] => []
      | _ :: s' => sub_go r t false k s'
      end
  | O =>
      match match_at r bos s with
      | Some (rest, c) =>
          let n := length s - length rest in
          expand t (take n s) c ++
          match s with
          | [] => []
          | ch :: s' =>
              if Nat.eqb n 0 then ch :: sub_go r t false 0 s'
              else sub_go r t false (n - 1) s'
          end
      | None =>
          match s with
          | [] => []
          | ch :: s' => ch :: sub_go r t false 0 s'
          end
      end
  end.

(** [re.sub(pattern, repl, string)]: the template is compiled first, so a bad
    template raises even when nothing matches. *)
Definition sub (r : re) (repl : pystr) (s : pystr) : pyresult pystr :=
  bind (parse_template (groups r) repl) (fun t => Returns (sub_go r t true 0 s)).

(** [re.findall] for a pattern with one group: the texts of group 1. *)
Fixpoint findall_go (r : re) (bos : bool) (skip : nat) (s : pystr)
    : list pystr :=
  match skip with
  | S k =>
      match s with
      | [] => []
      | _ :: s' => findall_go r false k s'
      end
  | O =>
      match match_at r bos s with
      | Some (rest, c) =>
          let n := length s - length rest in
          default [] (c !! 1) ::
          match s with
          | [] => []
          | _ :: s' => findall_go r false (n - 1) s'
          end
      | None =>
          match s with
          | [] => []
          | _ :: s' => findall_go r false 0 s'
          end
      end
  end.

Definition findall (r : re) (s : pystr) : list pystr := findall_go r true 0 s.

(** [re.search(pattern, string)] as a truth value. *)
Fixpoint search_go (r : re) (bos : bool) (s : pystr) : bool :=
  match match_at r bos s with
  | Some _ => true
  | None =>
      match s with
      | [] => false
      | _ :: s' => search_go r false s'
      end
  end.

Definition search (r : re) (s : pystr) : bool := search_go r true s.

End Re.

Import Re.

(** ** scripts/auto-date-updater.py *)

Module DateUpdater.

(** [%B] in the C locale. *)
Definition month_name (m : N) : pystr :=
  match m with
  | 1 => lit "January" | 2 => lit "February" | 3 => lit "March"
  | 4 => lit "April" | 5 => lit "May" | 6 => lit "June"
  | 7 => lit "July" | 8 => lit "August" | 9 => lit "September"
  | 10 => lit "October" | 11 => lit "November" | _ => lit "December"
  end%N.

(** ['%Y년 %m월 %d일'], ['%Y/%m/%d'], ['%B %d, %Y']. *)
Definition strftime_kr (t : datetime) : pystr :=
  fmt_Y t ++ lit "년 " ++ fmt_m t ++ lit "월 " ++ fmt_d t ++ lit "일".
Definition strftime_slash (t : datetime) : pystr :=
  fmt_Y t ++ lit "/" ++ fmt_m t ++ lit "/" ++ fmt_d t.
Definition strftime_us (t : datetime) : pystr :=
  month_name (month t) ++ lit " " ++ fmt_d t ++ lit ", " ++ fmt_Y t.

Definition get_today_date (today : datetime) (format_type : pystr) : pystr :=
  let formats : gmap pystr pystr :=
    <[lit "us" := strftime_us today]>
    (<[lit "slash" := strftime_slash today]>
    (<[lit "dot" := strftime_dot today]>
    (<[lit "iso" := strftime_iso today]>
    (<[lit "kr" := strftime_kr today]> ∅)))) in
  default (default [] (formats !! lit "kr")) (formats !! format_type).

(** The date of the Korean fields: four digits, 년, optional blanks, one
    or two digits, 월, optional blanks, one or two digits, 일. *)
Definition kr_date : re :=
  (Exactly Digit 4 ⋅ Lit (lit "년") ⋅ Star Space ⋅
   Between Digit 1 2 ⋅ Lit (lit "월") ⋅ Star Space ⋅
   Between Digit 1 2 ⋅ Lit (lit "일"))%re.

(** Group 1 is the label between escaped asterisks, the colon and the blanks
    after it; group 2 is the date. *)
Definition kr_field (label : string) : re :=
  (Group 1 (Lit (lit "**" ++ lit label ++ lit "**:") ⋅ Star Space) ⋅
   Group 2 kr_date)%re.

(** The 완료일 pattern starts with "^-" and blanks inside group 1. *)
Definition completed_field : re :=
  (Group 1 (Bos ⋅ Lit (lit "-") ⋅ Star Space ⋅
            Lit (lit "**완료일**:") ⋅ Star Space) ⋅
   Group 2 kr_date)%re.

(** "### 오늘 (2025.08.21)": three groups, the last one the closing
    parenthesis. *)
Definition today_heading : re :=
  (Group 1 (Lit (lit "###") ⋅ Star Space ⋅ Lit (lit "오늘") ⋅ Star Space ⋅
            Lit (lit "(")) ⋅
   Group 2 (Exactly Digit 4 ⋅ Lit (lit ".") ⋅ Exactly Digit 2 ⋅
            Lit (lit ".") ⋅ Exactly Digit 2) ⋅
   Group 3 (Lit (lit ")")))%re.

(** "Date: 2025-08-21" *)
Definition iso_field : re :=
  (Group 1 (Lit (lit "Date:") ⋅ Star Space) ⋅
   Group 2 (Exactly Digit 4 ⋅ Lit (lit "-") ⋅ Exactly Digit 2 ⋅
            Lit (lit "-") ⋅ Exactly Digit 2))%re.

(** The replacement strings are f-strings such as [f'\\1{today_kr}']: a
    backslash, the digit 1, and the date right after it. *)
Definition patterns (today : datetime) : list (re * pystr) :=
  let today_kr := get_today_date today (lit "kr") in
  let today_iso := get_today_date today (lit "iso") in
  let today_dot := get_today_date today (lit "dot") in
  [ (kr_field "작성일", lit "\1" ++ today_kr);
    (kr_field "작성 일자", lit "\1" ++ today_kr);
    (completed_field, lit "\1" ++ today_kr);
    (kr_field "수정일", lit "\1" ++ today_kr);
    (kr_field "보류 일자", lit "\1" ++ today_kr);
    (kr_field "취소 일자", lit "\1" ++ today_kr);
    (today_heading, lit "\1" ++ today_dot ++ lit "\3");
    (iso_field, lit "\1" ++ today_iso) ].

(** Files by path, with their decoded text. *)
Abbreviation files := (gmap pystr pystr).

(** The three messages: the file does not exist, the date fields were
    updated, there is no date field to update. *)
Definition msg_missing (file_path : pystr) : pystr :=
  lit "파일이 존재하지 않습니다: " ++ file_path.
Definition msg_updated (file_path : pystr) : pystr :=
  lit "날짜 필드 업데이트 완료: " ++ file_path.
Definition msg_no_fields (file_path : pystr) : pystr :=
  lit "업데이트할 날짜 필드 없음: " ++ file_path.

(** The messages of [update_date_in_file]: the date was updated, nothing
    changed. *)
Definition msg_date_updated (file_path : pystr) : pystr :=
  lit "날짜 업데이트 완료: " ++ file_path.
Definition msg_unchanged (file_path : pystr) : pystr :=
  lit "변경사항 없음: " ++ file_path.

(** [update_date_in_file(file_path, pattern, new_date)]: the value returned,
    the files after the call and what was printed. *)
Definition update_date_in_file (fs : files) (file_path : pystr) (pattern : re)
    (new_date : pystr) : pyresult (bool * files * list pystr) :=
  match fs !! file_path with
  | None => Returns (false, fs, [msg_missing file_path])
  | Some content =>
      bind (sub pattern new_date content) (fun updated_content =>
        if bool_decide (content ≠ updated_content)
        then Returns (true, <[file_path := updated_content]> fs,
                      [msg_date_updated file_path])
        else Returns (false, fs, [msg_unchanged file_path]))
  end.

(** The loop over the patterns: [content] and [updated] are threaded. *)
Fixpoint apply_patterns (ps : list (re * pystr)) (content : pystr)
    (updated : bool) : pyresult (pystr * bool) :=
  match ps with
  | [] => Returns (content, updated)
  | (pattern, replacement) :: ps' =>
      bind (sub pattern replacement content) (fun new_content =>
        if bool_decide (new_content ≠ content)
        then apply_patterns ps' new_content true
        else apply_patterns ps' content updated)
  end.

(** The result is the files after the call and what was printed. *)
Definition update_markdown_date_fields (today : datetime) (fs : files)
    (file_path : pystr) : pyresult (files * list pystr) :=
  match fs !! file_path with
  | None => Returns (fs, [msg_missing file_path])
  | Some content =>
      bind (apply_patterns (patterns today) content false)
        (fun '(content', updated) =>
           if updated : bool
           then Returns (<[file_path := content']> fs, [msg_updated file_path])
           else Returns (fs, [msg_no_fields file_path]))
  end.

Definition format_names : list pystr :=
  [lit "kr"; lit "iso"; lit "dot"; lit "slash"; lit "us"].

(** The [__main__] block; [sys.argv] is [prog :: args]. *)
Definition main (today : datetime) (fs : files) (prog : pystr)
    (args : list pystr) : pyresult (files * list pystr) :=
  match args with
  | [] =>
      Returns (fs,
        [ lit "오늘 날짜:";
          lit "  한국어: " ++ get_today_date today (lit "kr");
          lit "  ISO: " ++ get_today_date today (lit "iso");
          lit "  Dot: " ++ get_today_date today (lit "dot");
          [nl] ++ lit "사용법:";
          lit "  " ++ prog ++ lit " <file_path> - 파일의 날짜 필드 자동 업데이트";
          lit "  " ++ prog ++ lit " kr|iso|dot - 특정 형식으로 날짜 출력" ])
  | arg :: _ =>
      if bool_decide (arg ∈ format_names)
      then Returns (fs, [get_today_date today arg])
      else update_markdown_date_fields today fs arg
  end.

End DateUpdater.
(** ** scripts/sync-progress.py *)

Module ProgressSync.

Definition root_dir : pystr := lit "/mnt/d/my_programs/HR".
Definition todo_name : pystr := lit "todo-development.md".
Definition sync_log_name : pystr := lit ".sync-log.txt".

(** The regular files directly under [root_dir]: name and text, in the
    order in which the directory enumerates them. *)
Abbreviation dir := (list (pystr * pystr)).

Fixpoint read (name : pystr) (d : dir) : option pystr :=
  match d with
  | [] => None
  | (n, text) :: d' => if bool_decide (n = name) then Some text else read name d'
  end.

(** [open(name, 'w').write(text)]: the file is replaced, or created. *)
Fixpoint write (name text : pystr) (d : dir) : dir :=
  match d with
  | [] => [(name, text)]
  | (n, t) :: d' =>
      if bool_decide (n = name) then (n, text) :: d'
      else (n, t) :: write name text d'
  end.

(** A glob pattern with one star: [pre*suf]. *)
Definition fnmatch (pre suf name : pystr) : bool :=
  starts_with pre name && ends_with suf (drop (length pre) name).

(** [root_dir.glob(pre*suf)]: the names that match, in directory order. *)
Definition glob (pre suf : pystr) (d : dir) : list pystr :=
  List.filter (fnmatch pre suf) (map fst d).

Record completed_task := { c_file : pystr; c_task : pystr; c_date : pystr }.
Record in_progress_task := { p_file : pystr; p_task : pystr }.

(** The two lists of a [ProgressSync] object. *)
Record sync := {
  completed_tasks : list completed_task;
  in_progress_tasks : list in_progress_task
}.

Definition init : sync := {| completed_tasks := []; in_progress_tasks := [] |}.

(** "- \[x\] (.+?)(?:\n|$)" *)
Definition completed_re : re :=
  (Lit (lit "- [x] ") ⋅ Group 1 (LazyPlus Dot) ⋅ (Lit [nl] ∣ Eos))%re.

(** "- \[ \] (.+?)(?:🔄|진행중)" *)
Definition in_progress_re : re :=
  (Lit (lit "- [ ] ") ⋅ Group 1 (LazyPlus Dot) ⋅
   (Lit (lit "🔄") ∣ Lit (lit "진행중")))%re.

Definition extract_progress (now : datetime) (d : dir) (self : sync)
    (plan_file : pystr) : sync :=
  let content := default [] (read plan_file d) in
  let completed := findall completed_re content in
  let in_progress := findall in_progress_re content in
  {| completed_tasks :=
       completed_tasks self ++
       map (fun task => {| c_file := plan_file; c_task := task;
                           c_date := strftime_dot now |}) completed;
     in_progress_tasks :=
       in_progress_tasks self ++
       map (fun task => {| p_file := plan_file; p_task := task |}) in_progress |}.

(** The list of plan files: one glob, extended by the other. *)
Definition plan_files (d : dir) : list pystr :=
  glob [] (lit "-plan.md") d ++ glob (lit "FEAT-") (lit "-plan.md") d.

Definition scan_plan_files (now : datetime) (d : dir) (self : sync) : sync :=
  fold_left (extract_progress now d) (plan_files d) self.

(** The unchecked box, then group 1: anything, the first 30 characters of
    the task (escaped, so taken literally), anything. *)
Definition todo_re (task : pystr) : re :=
  (Lit (lit "- [ ] ") ⋅ Group 1 (Star Dot ⋅ Lit (take 30 task) ⋅ Star Dot))%re.

(** [rf'- [x] \1 ✅ ({task["date"]} 완료)'] *)
Definition todo_replacement (date : pystr) : pystr :=
  lit "- [x] \1 ✅ (" ++ date ++ lit " 완료)".

Fixpoint update_progress_in_content (tasks : list completed_task)
    (content : pystr) : pyresult pystr :=
  match tasks with
  | [] => Returns content
  | task :: tasks' =>
      bind (sub (todo_re (c_task task)) (todo_replacement (c_date task)) content)
        (update_progress_in_content tasks')
  end.

(** The files after the call and what was printed. *)
Definition update_todo_file (self : sync) (d : dir)
    : pyresult (dir * list pystr) :=
  match read todo_name d with
  | None =>
      Returns (d, [lit "⚠️  " ++ root_dir ++ lit "/" ++ todo_name
                   ++ lit " 파일이 없습니다."])
  | Some content =>
      bind (update_progress_in_content (completed_tasks self) content)
        (fun updated_content =>
           Returns (write todo_name updated_content d,
                    [lit "✅ " ++ todo_name ++ lit " 업데이트 완료"]))
  end.

Definition calculate_progress (self : sync) : pynum :=
  let total_tasks :=
    length (completed_tasks self) + length (in_progress_tasks self) in
  if Nat.eqb total_tasks 0 then PyInt 0
  else PyFloat
         (round1 (float_mul
                    (int_truediv (Z.of_nat (length (completed_tasks self)))
                                 (Z.of_nat total_tasks))
                    100)).

(** [l[-n:]] *)
Definition last_n {A} (n : nat) (l : list A) : list A :=
  drop (length l - n) l.

Definition generate_summary (now : datetime) (self : sync) : pystr :=
  let progress := calculate_progress self in
  let summary :=
    [nl] ++ lit "📊 Progress Sync Report" ++ [nl] ++
    lit "=======================" ++ [nl] ++
    lit "📅 Date: " ++ strftime_minute now ++ [nl] ++
    lit "✅ Completed: " ++ str_nat (length (completed_tasks self))
      ++ lit " tasks" ++ [nl] ++
    lit "🔄 In Progress: " ++ str_nat (length (in_progress_tasks self))
      ++ lit " tasks  " ++ [nl] ++
    lit "📈 Overall Progress: " ++ str_num progress ++ lit "%" ++ [nl] ++
    [nl] ++ lit "Recent Completions:" ++ [nl] in
  fold_left
    (fun summary task =>
       summary ++ lit "  • " ++ take 50 (c_task task) ++ lit "... ("
         ++ c_date task ++ lit ")" ++ [nl])
    (last_n 5 (completed_tasks self)) summary.

(** One run of the script: a fresh object, the scan, the todo file, the
    summary on the console and in the log.  The clock is read once. *)
Definition run (now : datetime) (d : dir) : pyresult (sync * dir * list pystr) :=
  let self := scan_plan_files now d init in
  bind (update_todo_file self d) (fun '(d1, out) =>
    let summary := generate_summary now self in
    let d2 := write sync_log_name summary d1 in
    Returns (self, d2,
             [lit "🔄 Progress sync 시작..."] ++ out ++
             [summary;
              lit "📝 동기화 로그: " ++ root_dir ++ lit "/" ++ sync_log_name])).

End ProgressSync.
(** ** scripts/auto-detect-progress.py *)

Module ProgressDetector.

Definition root_dir : pystr := lit "/mnt/d/my_programs/HR".

(** An entry below [root_dir]: its text (for a regular file) and its
    modification time. *)
Record file := { text : pystr; mtime : Z }.

(** The entries below [root_dir] by their path relative to it, in the order
    in which the file system enumerates them. *)
Abbreviation tree := (list (pystr * file)).

(** The dictionary kept in [.progress-state.json]. *)
Record state := {
  file_hashes : gmap pystr pystr;
  test_results : gmap pystr pystr;
  last_check : option Z;
  completed_tasks : list pystr
}.

(** What [subprocess.run] does: it returns with the captured output, or it
    raises (the program is missing, for instance). *)
Inductive outcome :=
  | Completed (stdout : pystr)
  | Failed.

Record world := {
  entries : tree;
  state_file : option state;      (* .progress-state.json *)
  report_file : option pystr;     (* .detection-report.md *)
  ss_tuln : outcome;              (* what running ss will do *)
  ps_aux : outcome                (* what running ps will do *)
}.

Inductive pyval :=
  | VStr (s : pystr)
  | VBool (b : bool).

Definition truthy (v : option pyval) : bool :=
  match v with
  | Some (VStr s) => negb (Nat.eqb (length s) 0)
  | Some (VBool b) => b
  | None => false
  end.

Record detected_item := { d_task : pystr; d_evidence : pystr; d_type : pystr }.

Record completion := {
  task : pystr;
  confidence : nat;
  evidence : list pystr;
  timestamp : Z
}.

Record update := { u_file : pystr; u_task : pystr; u_confidence : nat }.

Record task_pattern := { tp_files : list pystr; tp_type : pystr }.

Fixpoint find_entry (path : pystr) (t : tree) : option file :=
  match t with
  | [] => None
  | (p, f) :: t' => if bool_decide (p = path) then Some f else find_entry path t'
  end.

Fixpoint write_entry (path : pystr) (f : file) (t : tree) : tree :=
  match t with
  | [] => [(path, f)]
  | (p, g) :: t' =>
      if bool_decide (p = path) then (p, f) :: t'
      else (p, g) :: write_entry path f t'
  end.

(** The last component of a path. *)
Fixpoint basename_go (path acc : pystr) : pystr :=
  match path with
  | [] => acc
  | c :: path' => if (c =? 47)%N then basename_go path' path' else basename_go path' acc
  end.
Definition basename (path : pystr) : pystr := basename_go path path.

(** [root_dir.glob('*-plan.md')] and [root_dir.glob('FEAT-*-plan.md')]: the
    star does not cross a directory separator. *)
Definition glob_root (pre suf : pystr) (t : tree) : list pystr :=
  List.filter
    (fun p => negb (contains (lit "/") p) && starts_with pre p
              && ends_with suf (drop (length pre) p))
    (map fst t).

Definition plan_files (t : tree) : list pystr :=
  glob_root [] (lit "-plan.md") t ++ glob_root (lit "FEAT-") (lit "-plan.md") t.

(** [root_dir.glob(f'{top}/**/*{file_pattern}*')]: every entry below [top]
    whose name contains the pattern. *)
Definition glob_rec (top file_pattern : pystr) (t : tree) : list (pystr * file) :=
  List.filter
    (fun e => starts_with (top ++ lit "/") (fst e)
              && contains file_pattern (basename (fst e)))
    t.

(** An insertion-ordered [dict]: assigning to a key that is present keeps
    its place. *)
Fixpoint dict_set {V} (k : pystr) (v : V) (d : list (pystr * V)) : list (pystr * V) :=
  match d with
  | [] => [(k, v)]
  | (k', v') :: d' =>
      if bool_decide (k' = k) then (k', v) :: d' else (k', v') :: dict_set k v d'
  end.

(** The dictionary that [check_running_services] fills. *)
Abbreviation indicators := (gmap pystr pyval).

Section Interpreter.
(** [hashlib.md5(...).hexdigest()] and [str.lower]: the digest and the
    Unicode case tables are not part of the script. *)
Context (md5 : pystr -> pystr) (lower : pystr -> pystr).

Definition load_state (w : world) : state :=
  match state_file w with
  | Some st => st
  | None =>
      {| file_hashes := ∅; test_results := ∅; last_check := None;
         completed_tasks := [] |}
  end.

Definition save_state (current_state : state) (w : world) : world :=
  {| entries := entries w; state_file := Some current_state;
     report_file := report_file w; ss_tuln := ss_tuln w; ps_aux := ps_aux w |}.

Definition get_file_hash (t : tree) (filepath : pystr) : option pystr :=
  match find_entry filepath t with
  | Some f => Some (md5 (text f))
  | None => None
  end.

Definition watched : list (pystr * list pystr) :=
  [ (lit "excel_export",
     [ lit "backend/routes/admin/leaveAdmin.js";
       lit "backend/services/LeaveExcelService.js";
       lit "frontend/src/components/UnifiedLeaveOverview.tsx" ]);
    (lit "virtual_scroll",
     [ lit "frontend/src/components/VirtualScrollList.tsx";
       lit "frontend/package.json" ]);
    (lit "charts",
     [ lit "frontend/src/components/LeaveCharts.tsx";
       lit "frontend/package.json" ]) ].

Definition full_path (file_path : pystr) : pystr :=
  root_dir ++ lit "/" ++ file_path.

Definition set_hash (k v : pystr) (st : state) : state :=
  {| file_hashes := <[k := v]> (file_hashes st);
     test_results := test_results st; last_check := last_check st;
     completed_tasks := completed_tasks st |}.

(** The body of the inner loop of [detect_code_changes]. *)
Definition check_watched (t : tree) (feature : pystr)
    (acc : gmap pystr (list pystr) * state) (file_path : pystr)
    : gmap pystr (list pystr) * state :=
  let '(changes, st) := acc in
  match get_file_hash t file_path with
  | Some current_hash =>
      let old_hash := file_hashes st !! full_path file_path in
      let changes' :=
        match old_hash with
        | Some old =>
            if negb (Nat.eqb (length old) 0) && bool_decide (current_hash ≠ old)
            then <[feature := default [] (changes !! feature) ++ [file_path]]> changes
            else changes
        | None => changes
        end in
      (changes', set_hash (full_path file_path) current_hash st)
  | None => (changes, st)
  end.

Definition detect_code_changes (t : tree) (st : state)
    : gmap pystr (list pystr) * state :=
  fold_left
    (fun acc '(feature, files) => fold_left (check_watched t feature) files acc)
    watched (∅, st).

Definition test_result_files : list pystr :=
  [ lit "frontend/coverage/coverage-summary.json";
    lit "backend/coverage/coverage-summary.json";
    lit "test-results.json" ].

Definition check_test_results (t : tree) (st : state) : list pystr :=
  List.filter
    (fun result_file =>
       match find_entry result_file t with
       | Some f =>
           match last_check st with
           | None => true
           | Some last => (last <? mtime f)%Z
           end
       | None => false
       end)
    test_result_files.

(** "- \[ \] (.+?)(?:\n|$)" *)
Definition pending_re : re :=
  (Lit (lit "- [ ] ") ⋅ Group 1 (LazyPlus Dot) ⋅ (Lit [nl] ∣ Eos))%re.

Definition classify (task : pystr) (task_patterns : list (pystr * task_pattern))
    : list (pystr * task_pattern) :=
  if contains (lit "Excel") task || contains (lit "excel") task then
    dict_set task {| tp_files := [lit "LeaveExcelService"; lit "exportExcel"];
                     tp_type := lit "excel_export" |} task_patterns
  else if contains (lit "virtual") (lower task) || contains (lit "scroll") (lower task) then
    dict_set task {| tp_files := [lit "VirtualScroll"; lit "react-window"];
                     tp_type := lit "virtual_scroll" |} task_patterns
  else if contains (lit "test") (lower task) then
    dict_set task {| tp_files := [lit ".test."; lit ".spec."];
                     tp_type := lit "test" |} task_patterns
  else task_patterns.

Definition analyze_plan_files (t : tree) : list (pystr * task_pattern) :=
  fold_left
    (fun task_patterns plan_file =>
       let content := default [] (text <$> find_entry plan_file t) in
       fold_left (fun tp task => classify task tp) (findall pending_re content)
         task_patterns)
    (plan_files t) [].

(** [timedelta(hours=24)] in microseconds. *)
Definition one_day : Z := 86400000000%Z.

Definition detect_implementation (t : tree) (now : datetime)
    (task_patterns : list (pystr * task_pattern)) : list detected_item :=
  flat_map
    (fun '(task, pattern) =>
       flat_map
         (fun file_pattern =>
            let frontend_files := glob_rec (lit "frontend") file_pattern t in
            let backend_files := glob_rec (lit "backend") file_pattern t in
            match
              List.find (fun e => (stamp now - one_day <? mtime (snd e))%Z)
                (frontend_files ++ backend_files)
            with
            | Some e =>
                [ {| d_task := task;
                     d_evidence := lit "File created/modified: " ++ basename (fst e);
                     d_type := tp_type pattern |} ]
            | None => []
            end)
         (tp_files pattern))
    task_patterns.

(** *** [check_running_services]

    The body runs on the local dictionary [indicators] and may raise; the
    bare [except: pass] around it catches whatever was raised, and the
    dictionary, as filled so far, is returned. *)

Definition probe (A : Type) : Type := indicators -> indicators * option A.

Definition ret {A} (a : A) : probe A := fun d => (d, Some a).

Definition seq {A B} (m : probe A) (f : A -> probe B) : probe B :=
  fun d =>
    match m d with
    | (d', Some a) => f a d'
    | (d', None) => (d', None)
    end.

Definition subprocess_run (o : outcome) : probe pystr :=
  fun d =>
    match o with
    | Completed stdout => (d, Some stdout)
    | Failed => (d, None)
    end.

Definition setitem (k : pystr) (v : pyval) : probe unit :=
  fun d => (<[k := v]> d, Some tt).

Definition when (b : bool) (m : probe unit) : probe unit :=
  if b then m else ret tt.

Definition try_except_pass (m : probe unit) : probe unit :=
  fun d => (fst (m d), Some tt).

#[local] Instance probe_ret : MRet probe := @ret.
#[local] Instance probe_bind : MBind probe := fun A B f m => seq m f.

Definition check_running_services (ss ps : outcome) : pyresult indicators :=
  let body :=
    try_except_pass
      (output ← subprocess_run ss;
       when (contains (lit ":3727") output)
         (setitem (lit "frontend") (VStr (lit "running")));;
       when (contains (lit ":5455") output || contains (lit ":5456") output)
         (setitem (lit "backend") (VStr (lit "running")));;
       ps_output ← subprocess_run ps;
       when (contains (lit "npm run dev") ps_output || contains (lit "vite") ps_output)
         (setitem (lit "dev_mode") (VBool true))) in
  match body ∅ with
  | (d, Some _) => Returns d
  | (_, None) => Raises
  end.

(** *** [infer_completions] *)

(** The score and the evidence of one detected item (lines 212 to 233). *)
Definition score_item (code_changes : gmap pystr (list pystr))
    (test_results_now : list pystr) (services : indicators)
    (item : detected_item) : nat * list pystr :=
  let score := 0 in
  let evidence := [] in
  let '(score, evidence) :=
    if negb (Nat.eqb (length (d_evidence item)) 0)
    then (score + 40, evidence ++ [d_evidence item])
    else (score, evidence) in
  let '(score, evidence) :=
    match code_changes !! d_type item with
    | Some files =>
        (score + 30,
         evidence ++ [lit "Related files changed: " ++ join (lit ", ") files])
    | None => (score, evidence)
    end in
  let '(score, evidence) :=
    if negb (Nat.eqb (length test_results_now) 0)
    then (score + 20, evidence ++ [lit "Tests executed recently"])
    else (score, evidence) in
  let '(score, evidence) :=
    if truthy (services !! lit "dev_mode")
    then (score + 10, evidence ++ [lit "Development server running"])
    else (score, evidence) in
  (score, evidence).

(** The loop over [detected] (lines 208 to 243). *)
Definition combine_signals (now : datetime)
    (code_changes : gmap pystr (list pystr)) (test_results_now : list pystr)
    (services : indicators) (detected : list detected_item) : list completion :=
  flat_map
    (fun item =>
       let '(score, evidence) :=
         score_item code_changes test_results_now services item in
       if Nat.leb 60 score
       then [ {| task := d_task item; confidence := score;
                 evidence := evidence; timestamp := stamp now |} ]
       else [])
    detected.

Definition infer_completions (now : datetime) (w : world) (st : state)
    : pyresult (list completion * state) :=
  let '(code_changes, st1) := detect_code_changes (entries w) st in
  let test_results_now := check_test_results (entries w) st1 in
  let task_patterns := analyze_plan_files (entries w) in
  let detected := detect_implementation (entries w) now task_patterns in
  bind (check_running_services (ss_tuln w) (ps_aux w)) (fun services =>
    Returns
      (combine_signals now code_changes test_results_now services detected,
       st1)).

(** *** [update_plan_files] *)

(** The unchecked box, then group 1: the first 50 characters of the task
    (escaped, so taken literally) and, lazily, anything; then a newline or
    the end of the text. *)
Definition checkbox_re (task_text : pystr) : re :=
  (Lit (lit "- [ ] ") ⋅ Group 1 (Lit (take 50 task_text) ⋅ LazyStar Dot) ⋅
   (Lit [nl] ∣ Eos))%re.

(** [rf'- [x] \1 ✅ ({datetime.now().strftime("%Y.%m.%d")} 자동 감지)'] *)
Definition checkbox_replacement (now : datetime) : pystr :=
  lit "- [x] \1 ✅ (" ++ strftime_dot now ++ lit " 자동 감지)".

Definition rewrite_checkboxes (now : datetime) (task_text content : pystr)
    : pyresult pystr :=
  sub (checkbox_re task_text) (checkbox_replacement now) content.

(** The body of the loop over the plan files, for one completion. *)
Definition update_plan_file (now : datetime) (c : completion)
    (acc : pyresult (tree * list update)) (plan_file : pystr)
    : pyresult (tree * list update) :=
  bind acc (fun '(t, updates) =>
    let content := default [] (text <$> find_entry plan_file t) in
    if search (checkbox_re (task c)) content then
      bind (rewrite_checkboxes now (task c) content) (fun new_content =>
        Returns
          (write_entry plan_file {| text := new_content; mtime := stamp now |} t,
           updates ++ [ {| u_file := plan_file; u_task := task c;
                           u_confidence := confidence c |} ]))
    else Returns (t, updates)).

Definition update_plan_files (now : datetime) (t : tree)
    (completions : list completion) : pyresult (tree * list update) :=
  fold_left
    (fun acc c =>
       bind acc (fun '(t1, updates) =>
         fold_left (update_plan_file now c) (plan_files t1) (Returns (t1, updates))))
    completions (Returns (t, [])).

(** *** [generate_report] *)

Definition report_completion (report : pystr) (comp : completion) : pystr :=
  let report := report ++ lit "📌 Task: " ++ take 60 (task comp) ++ lit "..." ++ [nl] in
  let report := report ++ lit "   Confidence: " ++ str_nat (confidence comp)
                  ++ lit "%" ++ [nl] in
  let report := report ++ lit "   Evidence:" ++ [nl] in
  let report :=
    fold_left (fun report ev => report ++ lit "     • " ++ ev ++ [nl])
      (evidence comp) report in
  report ++ [nl].

Definition generate_report (now : datetime) (completions : list completion)
    (updates : list update) : pystr :=
  let report :=
    [nl] ++ lit "🤖 Auto-Detection Report" ++ [nl] ++
    lit "========================" ++ [nl] ++
    lit "📅 Time: " ++ strftime_minute now ++ [nl] ++
    lit "🔍 Detected Completions: " ++ str_nat (length completions) ++ [nl] ++
    [nl] in
  let report :=
    match completions with
    | [] => report
    | _ =>
        let report := report ++ lit "✅ Completed Tasks (Auto-detected):" ++ [nl] in
        let report := report ++ repeat 61%N 50 ++ [nl] ++ [nl] in
        fold_left report_completion completions report
    end in
  match updates with
  | _ :: _ =>
      let report := report ++ lit "📝 Files Updated:" ++ [nl] in
      let report := report ++ repeat 45%N 30 ++ [nl] in
      fold_left
        (fun report u =>
           report ++ lit "  • " ++ u_file u ++ lit ": " ++ take 40 (u_task u)
             ++ lit "..." ++ [nl])
        updates report
  | [] =>
      report ++ lit "ℹ️  No new completions detected." ++ [nl] ++
      [nl] ++ lit "💡 Hints for detection:" ++ [nl] ++
      lit "  • Create/modify implementation files" ++ [nl] ++
      lit "  • Run tests" ++ [nl] ++
      lit "  • Keep dev server running" ++ [nl]
  end.

(** *** [run] *)

Definition set_entries (t : tree) (w : world) : world :=
  {| entries := t; state_file := state_file w; report_file := report_file w;
     ss_tuln := ss_tuln w; ps_aux := ps_aux w |}.

Definition set_report (report : pystr) (w : world) : world :=
  {| entries := entries w; state_file := state_file w;
     report_file := Some report; ss_tuln := ss_tuln w; ps_aux := ps_aux w |}.

Definition finish (now : datetime) (completions : list completion) (st : state)
    : state :=
  {| file_hashes := file_hashes st; test_results := test_results st;
     last_check := Some (stamp now);
     completed_tasks := completed_tasks st ++ map task completions |}.

(** One run on a fresh [AutoProgressDetector]: the count of completions,
    the world afterwards and what was printed.  The clock is read once. *)
Definition run (now : datetime) (auto_update : bool) (w : world)
    : pyresult (nat * world * list pystr) :=
  let current_state := load_state w in
  let out := [lit "🔍 자동 완료 감지 시작..."] in
  bind (infer_completions now w current_state) (fun '(completions, st1) =>
    bind
      (match completions with
       | [] => Returns (entries w, [], out)
       | _ =>
           if auto_update then
             bind (update_plan_files now (entries w) completions)
               (fun '(t, updates) =>
                  Returns (t, updates,
                           out ++ [lit "✅ " ++ str_nat (length updates)
                                   ++ lit "개 파일 자동 업데이트 완료"]))
           else
             Returns (entries w, [],
                      out ++ [lit "🔔 " ++ str_nat (length completions)
                              ++ lit "개 완료 작업 감지됨";
                              lit "자동 업데이트하려면 --auto 옵션을 사용하세요"])
       end)
      (fun '(t, updates, out) =>
         let st2 := finish now completions st1 in
         let w1 := save_state st2 (set_entries t w) in
         let report := generate_report now completions updates in
         let w2 := set_report report w1 in
         Returns (length completions, w2, out ++ [report]))).

(** The [__main__] block: the exit status and the effects of [run]. *)
Definition main (now : datetime) (argv : list pystr) (w : world)
    : pyresult (nat * world * list pystr) :=
  let auto_mode :=
    bool_decide (lit "--auto" ∈ argv) || bool_decide (lit "auto" ∈ argv) in
  bind (run now auto_mode w) (fun '(result, w', out) =>
    Returns ((if Nat.leb 0 result then 0 else 1), w', out)).

End Interpreter.

End ProgressDetector.
(** * Vocabulary of the statements *)

Module Spec.

(** ** Date updater *)

(** The first two digits of the year, as [%Y] prints it, are octal digits:
    so it is in every year from 2000 to 2799. *)
Definition octal_year (today : datetime) : Prop :=
  is_octal (nth 0 (fmt_Y today) 0%N) && is_octal (nth 1 (fmt_Y today) 0%N) = true.

(** None of the eight patterns matches anywhere in the text. *)
Definition matches_none (today : datetime) (content : pystr) : bool :=
  forallb (fun pr => negb (search (fst pr) content)) (DateUpdater.patterns today).

Definition sample_today : datetime :=
  {| year := 2026; month := 11; day := 6; hour := 9; minute := 5;
     stamp := 0 |}.

Definition sample_notes : DateUpdater.files :=
  {[ lit "notes.md" := lit "# Notes" ++ [nl] ++ lit "- nothing dated here" ++ [nl] ]}.

Definition sample_plan : DateUpdater.files :=
  {[ lit "plan.md" := lit "- **작성일**: 2025년 01월 20일" ++ [nl] ]}.

Definition sample_heading : DateUpdater.files :=
  {[ lit "log.md" := lit "### 오늘 (2025.08.21)" ++ [nl] ]}.

Definition sample_done : DateUpdater.files :=
  {[ lit "done.md" :=
       lit "# Done" ++ [nl] ++ lit "- **완료일**: 2025년 01월 20일" ++ [nl] ]}.

(** The year, as [%Y] prints it, starts with two digits that are not both
    octal digits: 1980 or 2800, for instance. *)
Definition non_octal_year (today : datetime) : Prop :=
  is_octal (nth 0 (fmt_Y today) 0%N) && is_octal (nth 1 (fmt_Y today) 0%N) = false.

Definition sample_1999 : datetime :=
  {| year := 1999; month := 12; day := 31; hour := 23; minute := 59;
     stamp := 0 |}.

(** "Date:\s*\d{4}" with no group, for [update_date_in_file]. *)
Definition sample_pattern : re :=
  (Lit (lit "Date:") ⋅ Star Space ⋅ Exactly Digit 4)%re.

Definition sample_log : DateUpdater.files :=
  {[ lit "log.md" := lit "Date: 2025" ++ [nl] ]}.

(** ** Counting *)

(** How many times [a] occurs in [l]. *)
Definition count {A} `{EqDecision A} (a : A) (l : list A) : nat :=
  length (List.filter (fun x => bool_decide (x = a)) l).

#[global] Instance completed_task_eq_dec : EqDecision ProgressSync.completed_task.
Proof. solve_decision. Defined.

#[global] Instance in_progress_task_eq_dec : EqDecision ProgressSync.in_progress_task.
Proof. solve_decision. Defined.

(** ** Progress sync *)

Definition sample_dir : ProgressSync.dir :=
  [ (lit "FEAT-export-plan.md",
     lit "- [x] Excel export" ++ [nl] ++ lit "- [ ] Charts 🔄" ++ [nl]);
    (lit "todo-development.md", lit "- [ ] Excel export" ++ [nl]) ].

(** ** Progress detector *)

Definition weight (present : bool) (points : nat) : nat :=
  if present then points else 0.

Definition sample_now : datetime :=
  {| year := 2026; month := 11; day := 6; hour := 9; minute := 5;
     stamp := 100000000000 |}.

Definition sample_item : ProgressDetector.detected_item :=
  {| ProgressDetector.d_task := lit "Excel export button";
     ProgressDetector.d_evidence :=
       lit "File created/modified: LeaveExcelService.js";
     ProgressDetector.d_type := lit "excel_export" |}.

Definition sample_changes : gmap pystr (list pystr) :=
  {[ lit "excel_export" := [lit "backend/services/LeaveExcelService.js"] ]}.

(** The watched file [p] exists and the hash stored for it in [st] is a
    non-empty string that differs from its current digest. *)
Definition changed_since (md5 : pystr -> pystr) (t : ProgressDetector.tree)
    (st : ProgressDetector.state) (p : pystr) : Prop :=
  exists f old,
    ProgressDetector.find_entry p t = Some f /\
    ProgressDetector.file_hashes st !! ProgressDetector.full_path p = Some old /\
    old ≠ [] /\ md5 (ProgressDetector.text f) ≠ old.

(** The watched files, each with the feature it is listed under. *)
Definition watched_pairs : list (pystr * pystr) :=
  flat_map (fun '(feature, files) => map (pair feature) files)
    ProgressDetector.watched.

Definition sample_md5 (s : pystr) : pystr := lit "h" ++ str_nat (length s).

Definition sample_tree : ProgressDetector.tree :=
  [ (lit "frontend/package.json",
     {| ProgressDetector.text := lit "{}"; ProgressDetector.mtime := 5 |}) ].

Definition sample_state : ProgressDetector.state :=
  {| ProgressDetector.file_hashes :=
       {[ ProgressDetector.full_path (lit "frontend/package.json") := lit "h7" ]};
     ProgressDetector.test_results := ∅;
     ProgressDetector.last_check := None;
     ProgressDetector.completed_tasks := [] |}.

(** Both frontend/package.json and LeaveCharts.tsx exist, and the hashes
    stored for them are stale. *)
Definition sample_changed_tree : ProgressDetector.tree :=
  [ (lit "frontend/package.json",
     {| ProgressDetector.text := lit "{}"; ProgressDetector.mtime := 5 |});
    (lit "frontend/src/components/LeaveCharts.tsx",
     {| ProgressDetector.text := lit "chart"; ProgressDetector.mtime := 5 |}) ].

Definition sample_stale_state : ProgressDetector.state :=
  {| ProgressDetector.file_hashes :=
       <[ ProgressDetector.full_path (lit "frontend/package.json") := lit "h7" ]>
       {[ ProgressDetector.full_path (lit "frontend/src/components/LeaveCharts.tsx")
            := lit "h0" ]};
     ProgressDetector.test_results := ∅;
     ProgressDetector.last_check := None;
     ProgressDetector.completed_tasks := [] |}.

(** The clock of a machine that lost its time: 1970-01-01. *)
Definition sample_epoch : datetime :=
  {| year := 1970; month := 1; day := 1; hour := 0; minute := 0; stamp := 0 |}.

(** The keywords that [analyze_plan_files] looks for in a task. *)
Definition mentions_excel (task : pystr) : bool :=
  contains (lit "Excel") task || contains (lit "excel") task.
Definition mentions_scroll (lower : pystr -> pystr) (task : pystr) : bool :=
  contains (lit "virtual") (lower task) || contains (lit "scroll") (lower task).
Definition mentions_test (lower : pystr -> pystr) (task : pystr) : bool :=
  contains (lit "test") (lower task).

(** [task] is the text of an unchecked box of some plan file. *)
Definition pending_in (t : ProgressDetector.tree) (task : pystr) : Prop :=
  exists plan_file,
    plan_file ∈ ProgressDetector.plan_files t /\
    task ∈ findall ProgressDetector.pending_re
             (default [] (ProgressDetector.text <$> ProgressDetector.find_entry plan_file t)).

Definition sample_plan_tree : ProgressDetector.tree :=
  [ (lit "export-plan.md",
     {| ProgressDetector.text := lit "- [ ] Excel export test" ++ [nl];
        ProgressDetector.mtime := 5 |}) ].

Definition ascii_lower (s : pystr) : pystr :=
  map (fun c => if (65 <=? c)%N && (c <=? 90)%N then (c + 32)%N else c) s.

(** The completions that [infer_completions] returned. *)
Definition completions_of {S}
    (r : pyresult (list ProgressDetector.completion * S))
    : list ProgressDetector.completion :=
  match r with
  | Returns (cs, _) => cs
  | Raises => []
  end.

(** A plan with one Excel task, a service file changed a moment ago, and a
    fresh test report; [ss] is missing. *)
Definition sample_world : ProgressDetector.world :=
  {| ProgressDetector.entries :=
       [ (lit "export-plan.md",
          {| ProgressDetector.text := lit "- [ ] Excel export" ++ [nl];
             ProgressDetector.mtime := 0 |});
         (lit "backend/services/LeaveExcelService.js",
          {| ProgressDetector.text := lit "x";
             ProgressDetector.mtime := 99999999999 |});
         (lit "test-results.json",
          {| ProgressDetector.text := lit "{}";
             ProgressDetector.mtime := 99999999999 |}) ];
     ProgressDetector.state_file := None;
     ProgressDetector.report_file := None;
     ProgressDetector.ss_tuln := ProgressDetector.Failed;
     ProgressDetector.ps_aux := ProgressDetector.Completed (lit "node vite") |}.

Definition sample_completion : ProgressDetector.completion :=
  {| ProgressDetector.task := lit "Excel export";
     ProgressDetector.confidence := 60;
     ProgressDetector.evidence :=
       [ lit "File created/modified: LeaveExcelService.js";
         lit "Tests executed recently" ];
     ProgressDetector.timestamp := 100000000000 |}.

(** ** Rewriting the checkboxes, line by line *)

(** The lines of a text, without their terminators. *)
Fixpoint split_lines (s : pystr) : list pystr :=
  match s with
  | [] => [[]]
  | c :: s' =>
      if (c =? nl)%N then [] :: split_lines s'
      else match split_lines s' with
           | l :: ls => (c :: l) :: ls
           | [] => [[c]]
           end
  end.

Definition without_newlines (s : pystr) : pystr :=
  List.filter (fun c => negb (c =? nl)%N) s.

(** One line with its unchecked box marked: at the first place where the
    line has "- [ ] " followed by [prefix], the box is checked, the rest of
    the line is kept and [suffix] is appended. *)
Fixpoint mark_line (prefix suffix line : pystr) : pystr :=
  if starts_with (lit "- [ ] " ++ prefix) line
  then lit "- [x] " ++ drop 6 line ++ suffix
  else match line with
       | [] => []
       | c :: line' => c :: mark_line prefix suffix line'
       end.

(** A text with its boxes marked, terminators included: a marked line
    comes out without the newline that ended it, any other line with it. *)
Fixpoint mark_text (prefix suffix : pystr) (lines : list pystr) : pystr :=
  match lines with
  | [] => []
  | [l] => mark_line prefix suffix l
  | l :: ls =>
      mark_line prefix suffix l
      ++ (if contains (lit "- [ ] " ++ prefix) l then [] else [nl])
      ++ mark_text prefix suffix ls
  end.

(** What the detector appends to a line: the check mark and the date. *)
Definition checkbox_suffix (now : datetime) : pystr :=
  lit " ✅ (" ++ strftime_dot now ++ lit " 자동 감지)".

Definition sample_box_and_note : pystr :=
  lit "- [ ] Excel export" ++ [nl] ++ lit "Note: ask QA".

Definition sample_two_sheets : pystr :=
  lit "- [ ] Excel export (sheet 1)" ++ [nl] ++ lit "- [ ] Excel export (sheet 2)".

End Spec.

Import Spec.
(** * Facts about strings and regular expressions *)

Module ReFacts.

(** ** Formatting *)

Definition ascii_digit (c : N) : Prop := (48 <= c <= 57)%N.

Lemma digits_rev_digits k n : Forall ascii_digit (digits_rev k n).
Proof.
  revert n. induction k as [|k IH]; intros n; cbn; constructor; [|apply IH].
  unfold ascii_digit. pose proof (N.mod_upper_bound n 10 ltac:(done)) as H.
  revert H. generalize (n mod 10)%N. lia.
Qed.

Lemma zpad_digits k n : Forall ascii_digit (zpad k n).
Proof. unfold zpad. apply Forall_rev, digits_rev_digits. Qed.

Lemma zpad_length k n : length (zpad k n) = k.
Proof.
  unfold zpad. rewrite length_rev. revert n.
  induction k as [|k IH]; intros n; cbn; [reflexivity|]. by rewrite IH.
Qed.

Lemma list_of_length_2 {A} (l : list A) :
  length l = 2 -> exists a b, l = [a; b].
Proof. destruct l as [|a [|b [|c l]]]; try discriminate. eauto. Qed.

Lemma list_of_length_4 {A} (l : list A) :
  length l = 4 -> exists a b c d, l = [a; b; c; d].
Proof.
  destruct l as [|a [|b [|c [|d [|e l]]]]]; try discriminate. eauto 6.
Qed.

(** ** Replacement templates *)

Definition plain (c : N) : Prop := c <> 92%N.

Lemma ascii_digit_plain c : ascii_digit c -> plain c.
Proof. unfold ascii_digit, plain. lia. Qed.

Lemma digits_plain l : Forall ascii_digit l -> Forall plain l.
Proof.
  intros H. eapply Forall_impl; [exact H|]. apply ascii_digit_plain.
Qed.

Lemma bind_returns {A} (x : pyresult A) : bind x Returns = x.
Proof. by destruct x. Qed.

Lemma parse_template_go_nil n fuel : parse_template_go n fuel [] = Returns [].
Proof. by destruct fuel. Qed.

(** A stretch without backslash is copied. *)
Lemma parse_template_go_plain n a b k :
  Forall plain a ->
  parse_template_go n (length a + k) (a ++ b)
  = bind (parse_template_go n k b) (fun t => Returns (map TChr a ++ t)).
Proof.
  induction 1 as [|c a Hc Ha IH]; cbn [length app map Nat.add].
  - by rewrite bind_returns.
  - cbn [parse_template_go]. apply N.eqb_neq in Hc. rewrite Hc. cbn [negb].
    rewrite IH. by destruct (parse_template_go n k b).
Qed.

Lemma parse_template_go_plain_end n a k :
  Forall plain a ->
  parse_template_go n (length a + k) a = Returns (map TChr a).
Proof.
  intros Ha. rewrite <- (app_nil_r a) at 2.
  rewrite parse_template_go_plain, parse_template_go_nil by done.
  cbn. by rewrite app_nil_r.
Qed.

(** ** Prefixes and suffixes *)

Lemma starts_with_spec p s : starts_with p s = true <-> exists b, s = p ++ b.
Proof.
  revert s. induction p as [|a p IH]; intros s; cbn.
  - split; [eauto|done].
  - destruct s as [|c s].
    + split; [done|]. intros [b Hb]. discriminate.
    + rewrite andb_true_iff, N.eqb_eq, IH. split.
      * intros [-> [b ->]]. eauto.
      * intros [b [= -> ->]]. eauto.
Qed.

Lemma starts_with_app p b : starts_with p (p ++ b) = true.
Proof. apply starts_with_spec. eauto. Qed.

Lemma starts_with_same_length p s :
  starts_with p s && Nat.eqb (length p) (length s) = true <-> s = p.
Proof.
  rewrite andb_true_iff, starts_with_spec, Nat.eqb_eq. split.
  - intros [[b ->] Hl]. rewrite length_app in Hl.
    destruct b; [by rewrite app_nil_r|cbn in Hl; lia].
  - intros ->. split; [exists []; by rewrite app_nil_r|done].
Qed.

Lemma ends_with_aux_spec p s n :
  ends_with_aux p s n = true <-> n <= length s /\ drop n s = p.
Proof.
  revert s. induction n as [|n IH]; intros s; cbn [ends_with_aux].
  - rewrite starts_with_same_length, drop_0. split; [intros ->; split; [lia|done]|].
    by intros [_ ->].
  - destruct s as [|c s]; cbn [drop length].
    + split; [done|]. intros [H _]. lia.
    + rewrite IH. split; intros [H1 H2]; (split; [lia|done]).
Qed.

Lemma ends_with_spec p s : ends_with p s = true <-> exists a, s = a ++ p.
Proof.
  unfold ends_with. rewrite andb_true_iff, Nat.leb_le, ends_with_aux_spec. split.
  - intros (Hl & _ & Hd). exists (take (length s - length p) s).
    by rewrite <- Hd at 2; rewrite take_drop.
  - intros [a ->]. rewrite length_app. split; [lia|]. split; [lia|].
    replace (length a + length p - length p) with (length a) by lia.
    by rewrite drop_app_length.
Qed.

Lemma ends_with_drop p n s : ends_with p (drop n s) = true -> ends_with p s = true.
Proof.
  rewrite !ends_with_spec. intros [a Ha]. exists (take n s ++ a).
  by rewrite <- (take_drop n s) at 1; rewrite Ha, app_assoc.
Qed.

(** ** Counting *)

Lemma count_app {A} `{EqDecision A} (a : A) l1 l2 :
  count a (l1 ++ l2) = count a l1 + count a l2.
Proof. unfold count. by rewrite List.filter_app, length_app. Qed.

Lemma count_cons {A} `{EqDecision A} (a b : A) l :
  count a (b :: l) = (if bool_decide (b = a) then 1 else 0) + count a l.
Proof. unfold count. cbn. by destruct (bool_decide (b = a)). Qed.

Lemma count_not_in {A} `{EqDecision A} (a : A) l : a ∉ l -> count a l = 0.
Proof.
  induction l as [|b l IH]; [done|]. rewrite not_elem_of_cons, count_cons.
  intros [Hne Hl]. rewrite IH by done. by rewrite bool_decide_eq_false_2.
Qed.

Lemma count_NoDup {A} `{EqDecision A} (a : A) l :
  NoDup l -> a ∈ l -> count a l = 1.
Proof.
  induction 1 as [|b l Hb Hl IH]; [by intros ?%elem_of_nil|].
  rewrite count_cons, elem_of_cons. intros [->|Ha].
  - by rewrite bool_decide_eq_true_2, count_not_in.
  - rewrite IH by done. rewrite bool_decide_eq_false_2; [done|].
    intros ->. contradiction.
Qed.

Lemma count_filter {A} `{EqDecision A} (a : A) (p : A -> bool) l :
  count a (List.filter p l) = if p a then count a l else 0.
Proof.
  induction l as [|b l IH]; cbn [List.filter]; [by destruct (p a)|].
  destruct (p b) eqn:Hb; rewrite ?count_cons, IH.
  - destruct (p a) eqn:Ha; [done|]. rewrite bool_decide_eq_false_2; [done|].
    intros ->. congruence.
  - destruct (p a) eqn:Ha; [|done]. rewrite bool_decide_eq_false_2; [done|].
    intros ->. congruence.
Qed.

Lemma count_map_keyed {K A R} `{EqDecision K, EqDecision A, EqDecision R}
    (mk : K -> A -> R) (k k' : K) (a : A) (l : list A) :
  (forall k1 a1 k2 a2, mk k1 a1 = mk k2 a2 -> k1 = k2 /\ a1 = a2) ->
  count (mk k a) (map (mk k') l) = if bool_decide (k' = k) then count a l else 0.
Proof.
  intros Hinj. induction l as [|b l IH]; cbn [map]; [by case_bool_decide|].
  rewrite !count_cons, IH. case_bool_decide as Hk.
  - subst k'. f_equal. case_bool_decide as E1; case_bool_decide as E2; try done.
    + apply Hinj in E1 as [_ ->]. done.
    + subst b. done.
  - rewrite bool_decide_eq_false_2; [done|]. intros E. by apply Hinj in E as [-> _].
Qed.

Lemma count_flat_map_keyed {K A R} `{EqDecision K, EqDecision A, EqDecision R}
    (mk : K -> A -> R) (g : K -> list A) (k : K) (a : A) (ks : list K) :
  (forall k1 a1 k2 a2, mk k1 a1 = mk k2 a2 -> k1 = k2 /\ a1 = a2) ->
  count (mk k a) (flat_map (fun k' => map (mk k') (g k')) ks)
  = count k ks * count a (g k).
Proof.
  intros Hinj. induction ks as [|k' ks IH]; cbn [flat_map]; [done|].
  rewrite count_app, count_cons, IH, count_map_keyed by done.
  case_bool_decide; [subst; lia|lia].
Qed.

Lemma length_flat_map {A B} (f : A -> list B) l :
  length (flat_map f l) = sum_list (map (fun x => length (f x)) l).
Proof.
  induction l as [|a l IH]; cbn; [done|]. by rewrite length_app, IH.
Qed.

(** The template "\1" followed by a character that is no digit: a
    reference to group 1. *)
Lemma parse_backref_single n c s fuel :
  is_ascii_digit c = false -> 1 <= n ->
  parse_template_go n (S fuel) (lit "\1" ++ c :: s)
  = bind (parse_template_go n fuel (c :: s)) (fun t => Returns (TGroup 1 :: t)).
Proof.
  intros Hc Hn. change (lit "\1") with [92; 49]%N.
  cbn [app parse_template_go]. change (negb (92 =? 92)%N) with false.
  change (49 =? 103)%N with false. change (49 =? 48)%N with false.
  change (is_ascii_digit 49) with true. cbv iota. rewrite Hc.
  unfold addgroup. change (N.to_nat (dval 49)) with 1.
  apply Nat.leb_le in Hn. by rewrite Hn.
Qed.

(** The replacements of the two checkbox rewrites: plain text, group 1, a
    blank and plain text. *)
Lemma parse_box_template n pre post :
  Forall plain pre -> Forall plain post -> 1 <= n ->
  parse_template n (pre ++ lit "\1" ++ 32%N :: post)
  = Returns (map TChr pre ++ TGroup 1 :: map TChr (32%N :: post)).
Proof.
  intros Hpre Hpost Hn. unfold parse_template.
  replace (length (pre ++ lit "\1" ++ 32%N :: post))
    with (length pre + S (length (32%N :: post) + 1)).
  2:{ rewrite !length_app. change (length (lit "\1")) with 2. cbn [length]. lia. }
  rewrite parse_template_go_plain by done.
  rewrite parse_backref_single by done.
  rewrite parse_template_go_plain_end; [done|].
  apply Forall_cons_2; [done|done].
Qed.

(** ** Substitution *)

(** Where the pattern matches nowhere, [re.sub] gives the text back. *)
Lemma sub_go_no_match r t s bos :
  search_go r bos s = false -> sub_go r t bos 0 s = s.
Proof.
  revert bos. induction s as [|ch s IH]; intros bos; cbn.
  - by destruct (match_at r bos []).
  - destruct (match_at r bos (ch :: s)); [discriminate|].
    intros H. by rewrite IH.
Qed.

Lemma sub_no_match r repl t s :
  parse_template (groups r) repl = Returns t ->
  search r s = false ->
  sub r repl s = Returns s.
Proof.
  intros Ht Hs. unfold sub. rewrite Ht. cbn. by rewrite sub_go_no_match.
Qed.

End ReFacts.
(** * Properties of the date updater *)

Module DateUpdaterProofs.
Import DateUpdater ReFacts.

(** ** The formats *)

Ltac eval_lits :=
  repeat match goal with
         | |- context [lit ?s] =>
             let v := eval vm_compute in (lit s) in change (lit s) with v
         end.

Ltac map_lookups :=
  repeat (rewrite lookup_insert_eq || rewrite lookup_insert_ne by done).

Lemma get_today_date_kr today :
  get_today_date today (lit "kr") = strftime_kr today.
Proof.
  unfold get_today_date. generalize (strftime_kr today), (strftime_iso today),
    (strftime_dot today), (strftime_slash today), (strftime_us today).
  intros. eval_lits. by map_lookups.
Qed.

Lemma get_today_date_iso today :
  get_today_date today (lit "iso") = strftime_iso today.
Proof.
  unfold get_today_date. generalize (strftime_kr today), (strftime_iso today),
    (strftime_dot today), (strftime_slash today), (strftime_us today).
  intros. eval_lits. by map_lookups.
Qed.

Lemma get_today_date_dot today :
  get_today_date today (lit "dot") = strftime_dot today.
Proof.
  unfold get_today_date. generalize (strftime_kr today), (strftime_iso today),
    (strftime_dot today), (strftime_slash today), (strftime_us today).
  intros. eval_lits. by map_lookups.
Qed.

Lemma get_today_date_slash today :
  get_today_date today (lit "slash") = strftime_slash today.
Proof.
  unfold get_today_date. generalize (strftime_kr today), (strftime_iso today),
    (strftime_dot today), (strftime_slash today), (strftime_us today).
  intros. eval_lits. by map_lookups.
Qed.

Lemma get_today_date_us today :
  get_today_date today (lit "us") = strftime_us today.
Proof.
  unfold get_today_date. generalize (strftime_kr today), (strftime_iso today),
    (strftime_dot today), (strftime_slash today), (strftime_us today).
  intros. eval_lits. by map_lookups.
Qed.

Lemma main_format today fs prog arg rest :
  arg ∈ format_names ->
  main today fs prog (arg :: rest) = Returns (fs, [get_today_date today arg]).
Proof.
  intros H. unfold main. by rewrite bool_decide_eq_true_2.
Qed.

(** C7 (amended): without arguments the script prints today's date in the
    three formats kr, iso and dot, and the usage; with one of the
    arguments kr, iso, dot, slash, us it prints today's date in that format
    and nothing else. *)
Theorem main_prints_today today fs prog rest :
  main today fs prog []
  = Returns (fs,
      [ lit "오늘 날짜:";
        lit "  한국어: " ++ strftime_kr today;
        lit "  ISO: " ++ strftime_iso today;
        lit "  Dot: " ++ strftime_dot today;
        [nl] ++ lit "사용법:";
        lit "  " ++ prog ++ lit " <file_path> - 파일의 날짜 필드 자동 업데이트";
        lit "  " ++ prog ++ lit " kr|iso|dot - 특정 형식으로 날짜 출력" ]) /\
  main today fs prog (lit "kr" :: rest) = Returns (fs, [strftime_kr today]) /\
  main today fs prog (lit "iso" :: rest) = Returns (fs, [strftime_iso today]) /\
  main today fs prog (lit "dot" :: rest) = Returns (fs, [strftime_dot today]) /\
  main today fs prog (lit "slash" :: rest) = Returns (fs, [strftime_slash today]) /\
  main today fs prog (lit "us" :: rest) = Returns (fs, [strftime_us today]).
Proof.
  split.
  { unfold main.
    by rewrite get_today_date_kr, get_today_date_iso, get_today_date_dot. }
  rewrite !main_format by (unfold format_names; set_solver).
  by rewrite get_today_date_kr, get_today_date_iso, get_today_date_dot,
    get_today_date_slash, get_today_date_us.
Qed.

(** Counterexample to C7 as stated: on 2026-11-06, run without arguments,
    no printed line holds the date in the slash format or in the us
    format. *)
Lemma main_omits_slash_and_us :
  exists out,
    main sample_today ∅ (lit "auto-date-updater.py") [] = Returns (∅, out) /\
    forallb
      (fun line =>
         negb (contains (get_today_date sample_today (lit "slash")) line)
         && negb (contains (get_today_date sample_today (lit "us")) line))
      out = true.
Proof. eexists. split; [reflexivity|]. vm_compute. reflexivity. Qed.

(** ** Files without date fields *)

Lemma is_octal_digit c : is_octal c = true -> is_ascii_digit c = true.
Proof.
  unfold is_octal, is_ascii_digit. rewrite !andb_true_iff, !N.leb_le. lia.
Qed.

(** The template "\1" followed by two octal digits: the three digits are
    read as an octal character code, not as a reference to group 1. *)
Lemma parse_backref_octal n a b s rest k :
  is_octal a = true -> is_octal b = true -> Forall plain s ->
  parse_template_go n (S (length s + k)) (lit "\1" ++ a :: b :: s ++ rest)
  = bind (parse_template_go n k rest)
      (fun t => Returns (TChr (64 + dval a * 8 + dval b)%N :: map TChr s ++ t)).
Proof.
  intros Ha Hb Hs. change (lit "\1") with [92; 49]%N.
  cbn [app parse_template_go]. change (negb (92 =? 92)%N) with false.
  change (49 =? 103)%N with false. change (49 =? 48)%N with false.
  change (is_ascii_digit 49) with true. change (is_octal 49) with true.
  cbv iota. rewrite (is_octal_digit a Ha), Ha, Hb. cbn [andb].
  replace (255 <? dval 49 * 64 + dval a * 8 + dval b)%N with false.
  2:{ symmetry. apply N.ltb_ge. unfold is_octal, dval in *.
      rewrite !andb_true_iff, !N.leb_le in Ha, Hb. lia. }
  rewrite parse_template_go_plain by done.
  change (dval 49 * 64)%N with 64%N.
  by destruct (parse_template_go n k rest).
Qed.

Lemma fmt_Y_shape today :
  exists a b c d,
    fmt_Y today = [a; b; c; d] /\ Forall ascii_digit [a; b; c; d].
Proof.
  destruct (list_of_length_4 (fmt_Y today) (zpad_length 4 _))
    as (a & b & c & d & E).
  exists a, b, c, d. split; [done|]. rewrite <- E. apply zpad_digits.
Qed.

Ltac solve_plain :=
  repeat match goal with
         | |- Forall plain (_ ++ _) => apply Forall_app; split
         | |- Forall plain (fmt_Y _) => apply digits_plain, zpad_digits
         | |- Forall plain (fmt_m _) => apply digits_plain, zpad_digits
         | |- Forall plain (fmt_d _) => apply digits_plain, zpad_digits
         | |- Forall plain (lit _) =>
             eval_lits; repeat (apply Forall_cons; split; [done|]);
             apply Forall_nil_2
         end.

(** A template that starts with "\1" and the year parses, the year's first
    two digits being octal. *)
Lemma template_parses n today tail rest t :
  octal_year today -> Forall plain tail ->
  parse_template_go n (3 + length rest) rest = Returns t ->
  exists t', parse_template n (lit "\1" ++ (fmt_Y today ++ tail) ++ rest) = Returns t'.
Proof.
  intros Hy Htail Hrest.
  destruct (fmt_Y_shape today) as (a & b & c & d & E & Hd).
  unfold octal_year in Hy. rewrite E in *. cbn [nth] in Hy.
  apply andb_true_iff in Hy as [Ha Hb].
  unfold parse_template.
  replace (([a; b; c; d] ++ tail) ++ rest)
    with (a :: b :: (c :: d :: tail) ++ rest) by done.
  replace (length (lit "\1" ++ a :: b :: (c :: d :: tail) ++ rest))
    with (S (length (c :: d :: tail) + (3 + length rest))).
  2:{ change (lit "\1") with [92; 49]%N. cbn [length app].
      rewrite length_app. lia. }
  rewrite parse_backref_octal, Hrest; [by eexists|done|done|].
  apply Forall_cons; split; [|apply Forall_cons; split; [|done]];
    apply ascii_digit_plain;
    eapply Forall_forall in Hd; try apply Hd; set_solver.
Qed.

Lemma templates_parse today :
  octal_year today ->
  Forall (fun pr => exists t, parse_template (groups (fst pr)) (snd pr) = Returns t)
    (patterns today).
Proof.
  intros Hy. unfold patterns.
  rewrite get_today_date_kr, get_today_date_iso, get_today_date_dot.
  assert (Hkr : forall n,
    exists t, parse_template n (lit "\1" ++ strftime_kr today) = Returns t).
  { intros n.
    destruct (template_parses n today
                (lit "년 " ++ fmt_m today ++ lit "월 " ++ fmt_d today ++ lit "일")
                [] [] Hy) as [t Ht];
      [solve_plain|apply parse_template_go_nil|].
    rewrite app_nil_r in Ht. by exists t. }
  assert (Hdot :
    exists t, parse_template 3 (lit "\1" ++ strftime_dot today ++ lit "\3") = Returns t).
  { destruct (template_parses 3 today
                (lit "." ++ fmt_m today ++ lit "." ++ fmt_d today)
                (lit "\3") [TGroup 3] Hy) as [t Ht];
      [solve_plain|reflexivity|].
    by exists t. }
  assert (Hiso :
    exists t, parse_template 2 (lit "\1" ++ strftime_iso today) = Returns t).
  { destruct (template_parses 2 today
                (lit "-" ++ fmt_m today ++ lit "-" ++ fmt_d today)
                [] [] Hy) as [t Ht];
      [solve_plain|apply parse_template_go_nil|].
    rewrite app_nil_r in Ht. by exists t. }
  apply Forall_cons_2; [exact (Hkr _)|].
  apply Forall_cons_2; [exact (Hkr _)|].
  apply Forall_cons_2; [exact (Hkr _)|].
  apply Forall_cons_2; [exact (Hkr _)|].
  apply Forall_cons_2; [exact (Hkr _)|].
  apply Forall_cons_2; [exact (Hkr _)|].
  apply Forall_cons_2; [exact Hdot|].
  apply Forall_cons_2; [exact Hiso|].
  apply Forall_nil_2.
Qed.

Lemma apply_patterns_unmatched ps content updated :
  Forall (fun pr =>
            (exists t, parse_template (groups (fst pr)) (snd pr) = Returns t)
            /\ search (fst pr) content = false) ps ->
  apply_patterns ps content updated = Returns (content, updated).
Proof.
  induction 1 as [|[pattern replacement] ps [[t Ht] Hs] _ IH]; [done|].
  cbn [apply_patterns fst snd] in *.
  rewrite (sub_no_match _ _ t) by done. cbn [bind].
  by rewrite bool_decide_eq_false_2 by (intros H; by apply H).
Qed.



(** ** Files with date fields *)

(** C5 (defect of the code): on 2026-11-06 the field "**작성일**: 2025년
    01월 20일" does not become the label followed by today's date: the
    replacement "\1" followed by "2026..." is read as the octal escape
    "\120", the letter P, so label and date together are replaced by
    "P26년 11월 06일"; likewise the heading "### 오늘 (2025.08.21)" becomes
    "P26.11.06)".  And the 완료일 field is found only at the very beginning
    of the text: on a second line it is left as it was. *)
Theorem date_field_is_mangled :
  update_markdown_date_fields sample_today sample_plan (lit "plan.md")
  = Returns ({[ lit "plan.md" := lit "- P26년 11월 06일" ++ [nl] ]},
             [msg_updated (lit "plan.md")]) /\
  update_markdown_date_fields sample_today sample_heading (lit "log.md")
  = Returns ({[ lit "log.md" := lit "P26.11.06)" ++ [nl] ]},
             [msg_updated (lit "log.md")]) /\
  update_markdown_date_fields sample_today sample_done (lit "done.md")
  = Returns (sample_done, [msg_no_fields (lit "done.md")]).
Proof. repeat split; vm_compute; reflexivity. Qed.

(** C6 (defect of the code): a file that exists and matches none of the
    eight patterns is not always reported as unchanged.  With the clock at
    1970-01-01 (or in 1999) the replacement "\1" followed by the year is a
    reference to group 19, which no pattern has: [re.sub] rejects it before
    it looks at the text, so the call raises and prints nothing.  It is the
    slip of C5, the backslash-1 written right before the digits of the
    date. *)
Theorem unmatched_file_raises_at_epoch :
  sample_notes !! lit "notes.md"
  = Some (lit "# Notes" ++ [nl] ++ lit "- nothing dated here" ++ [nl]) /\
  matches_none sample_epoch
    (lit "# Notes" ++ [nl] ++ lit "- nothing dated here" ++ [nl]) = true /\
  update_markdown_date_fields sample_epoch sample_notes (lit "notes.md") = Raises /\
  update_markdown_date_fields sample_1999 sample_notes (lit "notes.md") = Raises.
Proof. repeat split; vm_compute; reflexivity. Qed.

End DateUpdaterProofs.
(** * Further properties of the date updater *)

Module DateUpdaterMore.
Import DateUpdater ReFacts DateUpdaterProofs.

(** ** [get_today_date] *)

(** X1: a format name that is none of kr, iso, dot, slash, us gives the
    Korean format, the default of the dictionary lookup. *)
Theorem get_today_date_falls_back_to_kr today format_type :
  format_type ∉ format_names ->
  get_today_date today format_type = strftime_kr today.
Proof.
  unfold format_names. rewrite !not_elem_of_cons. intros (H1 & H2 & H3 & H4 & H5 & _).
  unfold get_today_date.
  generalize (strftime_kr today), (strftime_iso today), (strftime_dot today),
    (strftime_slash today), (strftime_us today). intros kr iso dot slash us.
  rewrite (lookup_insert_ne _ (lit "us") format_type) by congruence.
  rewrite (lookup_insert_ne _ (lit "slash") format_type) by congruence.
  rewrite (lookup_insert_ne _ (lit "dot") format_type) by congruence.
  rewrite (lookup_insert_ne _ (lit "iso") format_type) by congruence.
  rewrite (lookup_insert_ne _ (lit "kr") format_type) by congruence.
  rewrite lookup_empty. cbn [default].
  eval_lits. by map_lookups.
Qed.

Lemma get_today_date_falls_back_to_kr_witness :
  get_today_date sample_today (lit "de") = strftime_kr sample_today.
Proof.
  apply (get_today_date_falls_back_to_kr sample_today (lit "de")).
  apply (bool_decide_unpack _). vm_compute. reflexivity.
Defined.

(** ** [update_date_in_file] *)

(** X2: [update_date_in_file] returns [True] exactly when it changed the
    file: then the file holds the substituted text, which differs from the
    old one; when it returns [False] (missing file, or nothing to replace)
    no file was written.  No other file is ever touched. *)
Theorem update_date_in_file_reports_change fs file_path pattern new_date
    changed fs' out :
  update_date_in_file fs file_path pattern new_date = Returns (changed, fs', out) ->
  (changed = true <-> fs' ≠ fs) /\
  (changed = false -> fs' = fs) /\
  (changed = true ->
     exists content,
       fs !! file_path = Some content /\
       sub pattern new_date content = Returns (default [] (fs' !! file_path)) /\
       fs' !! file_path ≠ Some content) /\
  (forall p, p ≠ file_path -> fs' !! p = fs !! p).
Proof.
  unfold update_date_in_file. destruct (fs !! file_path) as [content|] eqn:Hfs.
  - destruct (sub pattern new_date content) as [updated_content|] eqn:Hsub;
      [|discriminate].
    cbn [bind]. case_bool_decide as Hne; intros [= <- <- <-].
    + repeat split; try done.
      * intros _ E. apply Hne.
        assert (H : <[file_path := updated_content]> fs !! file_path
                    = fs !! file_path) by by rewrite E.
        rewrite lookup_insert_eq, Hfs in H. congruence.
      * intros _. exists content. rewrite lookup_insert_eq. cbn [default].
        repeat split; [done|]. congruence.
      * intros p Hp. by rewrite lookup_insert_ne.
    + repeat split; try done; try (intros [=]).
  - intros [= <- <- <-]. repeat split; try done; try (intros [=]).
Qed.

Lemma update_date_in_file_reports_change_witness :
  (true = true <-> ({[ lit "log.md" := lit "Date: 2026" ++ [nl] ]} : files) ≠ sample_log).
Proof.
  refine (proj1 (update_date_in_file_reports_change sample_log (lit "log.md")
            sample_pattern (lit "Date: 2026") true
            {[ lit "log.md" := lit "Date: 2026" ++ [nl] ]}
            [msg_date_updated (lit "log.md")] _)).
  vm_compute. reflexivity.
Defined.

(** ** [update_markdown_date_fields] and the command line *)

Lemma update_fields_frame today fs file_path fs' out :
  update_markdown_date_fields today fs file_path = Returns (fs', out) ->
  dom fs' = dom fs /\ forall p, p ≠ file_path -> fs' !! p = fs !! p.
Proof.
  unfold update_markdown_date_fields.
  destruct (fs !! file_path) as [content|] eqn:Hfs; [|by intros [= <- <-]].
  destruct (apply_patterns (patterns today) content false) as [[content' updated]|];
    [|discriminate].
  cbn [bind]. destruct updated; intros [= <- <-]; [|done]. split.
  - rewrite dom_insert_L. apply elem_of_dom_2 in Hfs. set_solver.
  - intros p Hp. by rewrite lookup_insert_ne.
Qed.

(** X3: whatever the arguments, a call of the script that returns has
    created and removed no file, and has changed at most the file named by
    its first argument; with no argument, or with a format name as first
    argument, it has changed nothing. *)
Theorem main_touches_one_file today fs prog args fs' out :
  main today fs prog args = Returns (fs', out) ->
  dom fs' = dom fs /\
  (forall p, head args ≠ Some p -> fs' !! p = fs !! p) /\
  ((args = [] \/ exists arg rest, args = arg :: rest /\ arg ∈ format_names) ->
   fs' = fs).
Proof.
  unfold main. destruct args as [|arg rest].
  - intros [= <- <-]. done.
  - case_bool_decide as Hfmt.
    + intros [= <- <-]. done.
    + intros H. apply update_fields_frame in H as [Hdom Hframe].
      split; [done|]. split.
      * intros p Hp. apply Hframe. intros ->. by apply Hp.
      * intros [[=]|(arg' & rest' & [= <- <-] & Hin)]. contradiction.
Qed.

Lemma main_touches_one_file_witness :
  dom ({[ lit "plan.md" := lit "- P26년 11월 06일" ++ [nl] ]} : files)
  = dom sample_plan.
Proof.
  refine (proj1 (main_touches_one_file sample_today sample_plan
            (lit "auto-date-updater.py") [lit "plan.md"]
            {[ lit "plan.md" := lit "- P26년 11월 06일" ++ [nl] ]}
            [msg_updated (lit "plan.md")] _)).
  vm_compute. reflexivity.
Defined.

(** ** The replacement templates *)

Lemma template_compiles n today tail rest t :
  octal_year today -> Forall plain tail ->
  parse_template_go n (3 + length rest) rest = Returns t ->
  exists c s,
    parse_template n (lit "\1" ++ (fmt_Y today ++ tail) ++ rest)
    = Returns (TChr c :: map TChr s ++ t).
Proof.
  intros Hy Htail Hrest.
  destruct (fmt_Y_shape today) as (a & b & c & d & E & Hd).
  unfold octal_year in Hy. rewrite E in *. cbn [nth] in Hy.
  apply andb_true_iff in Hy as [Ha Hb].
  unfold parse_template.
  replace (([a; b; c; d] ++ tail) ++ rest)
    with (a :: b :: (c :: d :: tail) ++ rest) by done.
  replace (length (lit "\1" ++ a :: b :: (c :: d :: tail) ++ rest))
    with (S (length (c :: d :: tail) + (3 + length rest))).
  2:{ change (lit "\1") with [92; 49]%N. cbn [length app].
      rewrite length_app. lia. }
  rewrite parse_backref_octal, Hrest; [by eexists _, _|done|done|].
  apply Forall_cons_2; [|apply Forall_cons_2; [|done]];
    apply ascii_digit_plain;
    eapply Forall_forall in Hd; try apply Hd; set_solver.
Qed.

Lemma no_group_in_chars i c s t :
  TGroup i ∉ t -> TGroup i ∉ TChr c :: map TChr s ++ t.
Proof.
  intros Ht. rewrite not_elem_of_cons, not_elem_of_app. split; [done|].
  split; [|done]. intros (x & [=] & _)%list_elem_of_fmap.
Qed.

(** X4: in a year that starts with two octal digits (2000 to 2799, for
    instance) the replacement of each of the eight patterns compiles, and
    the compiled replacement holds no reference to group 1: the backslash,
    the 1 and the first two digits of the year are read as one octal
    character code, so the label that group 1 matched is not written
    back. *)
Theorem replacement_drops_group_1 today :
  octal_year today ->
  Forall (fun pr =>
            exists t, parse_template (groups (fst pr)) (snd pr) = Returns t
                      /\ TGroup 1 ∉ t)
    (patterns today).
Proof.
  intros Hy. unfold patterns.
  rewrite get_today_date_kr, get_today_date_iso, get_today_date_dot.
  assert (Hkr : forall n,
    exists t, parse_template n (lit "\1" ++ strftime_kr today) = Returns t
              /\ TGroup 1 ∉ t).
  { intros n.
    destruct (template_compiles n today
                (lit "년 " ++ fmt_m today ++ lit "월 " ++ fmt_d today ++ lit "일")
                [] [] Hy) as (c & s & Ht);
      [solve_plain|apply parse_template_go_nil|].
    rewrite app_nil_r in Ht. eexists. split; [exact Ht|].
    apply no_group_in_chars, not_elem_of_nil. }
  assert (Hdot :
    exists t, parse_template 3 (lit "\1" ++ strftime_dot today ++ lit "\3") = Returns t
              /\ TGroup 1 ∉ t).
  { destruct (template_compiles 3 today
                (lit "." ++ fmt_m today ++ lit "." ++ fmt_d today)
                (lit "\3") [TGroup 3] Hy) as (c & s & Ht);
      [solve_plain|reflexivity|].
    eexists. split; [exact Ht|]. apply no_group_in_chars.
    rewrite not_elem_of_cons. split; [done|apply not_elem_of_nil]. }
  assert (Hiso :
    exists t, parse_template 2 (lit "\1" ++ strftime_iso today) = Returns t
              /\ TGroup 1 ∉ t).
  { destruct (template_compiles 2 today
                (lit "-" ++ fmt_m today ++ lit "-" ++ fmt_d today)
                [] [] Hy) as (c & s & Ht);
      [solve_plain|apply parse_template_go_nil|].
    rewrite app_nil_r in Ht. eexists. split; [exact Ht|].
    apply no_group_in_chars, not_elem_of_nil. }
  apply Forall_cons_2; [exact (Hkr _)|].
  apply Forall_cons_2; [exact (Hkr _)|].
  apply Forall_cons_2; [exact (Hkr _)|].
  apply Forall_cons_2; [exact (Hkr _)|].
  apply Forall_cons_2; [exact (Hkr _)|].
  apply Forall_cons_2; [exact (Hkr _)|].
  apply Forall_cons_2; [exact Hdot|].
  apply Forall_cons_2; [exact Hiso|].
  apply Forall_nil_2.
Qed.

Lemma replacement_drops_group_1_witness :
  Forall (fun pr =>
            exists t, parse_template (groups (fst pr)) (snd pr) = Returns t
                      /\ TGroup 1 ∉ t)
    (patterns sample_today).
Proof. apply (replacement_drops_group_1 sample_today). reflexivity. Defined.

(** The template "\1" followed by two digits that are not both octal is a
    reference to a group numbered ten or more. *)
Lemma parse_backref_two_digits n a b s fuel :
  n < 10 -> ascii_digit a ->
  is_octal a && is_octal b = false ->
  parse_template_go n (S fuel) (lit "\1" ++ a :: b :: s) = Raises.
Proof.
  intros Hn Ha Hab. change (lit "\1") with [92; 49]%N.
  cbn [app parse_template_go]. change (negb (92 =? 92)%N) with false.
  change (49 =? 103)%N with false. change (49 =? 48)%N with false.
  change (is_ascii_digit 49) with true. change (is_octal 49) with true.
  cbv iota.
  replace (is_ascii_digit a) with true.
  2:{ symmetry. unfold is_ascii_digit, ascii_digit in *.
      rewrite andb_true_iff, !N.leb_le. lia. }
  cbn [andb]. rewrite Hab. unfold addgroup.
  replace (Nat.leb (N.to_nat (dval 49 * 10 + dval a)) n) with false; [done|].
  symmetry. apply Nat.leb_gt. change (dval 49) with 1%N. lia.
Qed.

(** X5: in a year whose first two digits are not both octal digits (1980 or
    2800, for instance) the replacement template is rejected by [re.sub]:
    for every file that exists, whatever its text, the call raises and
    nothing is written or printed. *)
Theorem update_raises_in_non_octal_year today fs file_path content :
  fs !! file_path = Some content ->
  non_octal_year today ->
  update_markdown_date_fields today fs file_path = Raises.
Proof.
  intros Hfs Hy. unfold update_markdown_date_fields. rewrite Hfs.
  unfold patterns. rewrite get_today_date_kr. cbn [apply_patterns].
  unfold sub at 1. unfold parse_template, strftime_kr.
  destruct (fmt_Y_shape today) as (a & b & c & d & E & Hd).
  unfold non_octal_year in Hy. rewrite E in *. cbn [nth] in Hy.
  change (groups (kr_field "작성일")) with 2.
  match goal with
  | |- context [parse_template_go 2 (length ?l) ?l] =>
      replace (length l) with (S (length l - 1))
        by (change (lit "\1") with [92; 49]%N; cbn [length app]; lia)
  end.
  change (lit "\1" ++ [a; b; c; d] ++ ?t) with (lit "\1" ++ a :: b :: (c :: d :: t)).
  rewrite parse_backref_two_digits; [done|lia| |done].
  eapply Forall_forall in Hd; [apply Hd|]. set_solver.
Qed.

Lemma update_raises_in_non_octal_year_witness :
  update_markdown_date_fields sample_1999 sample_notes (lit "notes.md") = Raises.
Proof.
  apply (update_raises_in_non_octal_year sample_1999 sample_notes (lit "notes.md")
           (lit "# Notes" ++ [nl] ++ lit "- nothing dated here" ++ [nl])).
  - reflexivity.
  - reflexivity.
Defined.

End DateUpdaterMore.
(** * Properties of the progress detector *)

Module ProgressDetectorProofs.
Import ProgressDetector.

(** ** The service probe *)

Lemma check_running_services_failed_ss ps :
  check_running_services Failed ps = Returns ∅.
Proof. reflexivity. Qed.

(** C8: [check_running_services] never raises: whatever [ss] and [ps] do,
    failing included, it returns a dictionary; when [ss] fails the result is
    the empty dictionary, the one obtained when both commands run and
    report nothing, and when [ps] fails the result is the one obtained when
    [ps] runs and lists no development process. *)
Theorem check_running_services_never_raises (ss ps : outcome) :
  (exists d, check_running_services ss ps = Returns d) /\
  check_running_services Failed ps = Returns ∅ /\
  check_running_services Failed ps
    = check_running_services (Completed []) (Completed []) /\
  (forall output,
     check_running_services (Completed output) Failed
       = check_running_services (Completed output) (Completed [])).
Proof.
  split; [|split; [reflexivity|split; [reflexivity|]]].
  - destruct ss as [output|]; [|eexists; reflexivity].
    unfold check_running_services, try_except_pass, mbind, probe_bind, seq,
      subprocess_run, when.
    destruct ps as [ps_output|];
      destruct (contains (lit ":3727") output),
               (contains (lit ":5455") output || contains (lit ":5456") output);
      cbn; try destruct (contains (lit "npm run dev") ps_output
                         || contains (lit "vite") ps_output);
      cbn; eexists; reflexivity.
  - intros output.
    unfold check_running_services, try_except_pass, mbind, probe_bind, seq,
      subprocess_run, when.
    destruct (contains (lit ":3727") output),
             (contains (lit ":5455") output || contains (lit ":5456") output);
      reflexivity.
Qed.

(** ** The confidence score *)

Lemma score_item_sum code_changes test_results_now services item :
  fst (score_item code_changes test_results_now services item)
  = weight (negb (Nat.eqb (length (d_evidence item)) 0)) 40
    + weight (bool_decide (is_Some (code_changes !! d_type item))) 30
    + weight (negb (Nat.eqb (length test_results_now) 0)) 20
    + weight (truthy (services !! lit "dev_mode")) 10.
Proof.
  unfold score_item, weight.
  destruct (negb (Nat.eqb (length (d_evidence item)) 0)),
           (code_changes !! d_type item) as [files|],
           (negb (Nat.eqb (length test_results_now) 0)),
           (truthy (services !! lit "dev_mode")); reflexivity.
Qed.

Lemma combine_signals_elem now code_changes test_results_now services detected c :
  c ∈ combine_signals now code_changes test_results_now services detected <->
  exists item,
    item ∈ detected /\
    60 <= fst (score_item code_changes test_results_now services item) /\
    c = {| task := d_task item;
           confidence := fst (score_item code_changes test_results_now services item);
           evidence := snd (score_item code_changes test_results_now services item);
           timestamp := stamp now |}.
Proof.
  unfold combine_signals. rewrite !list_elem_of_In, in_flat_map. split.
  - intros (item & Hin & Hc). exists item. rewrite list_elem_of_In.
    destruct (score_item code_changes test_results_now services item)
      as [score ev] eqn:E.
    cbn [fst snd]. destruct (Nat.leb 60 score) eqn:L.
    + apply Nat.leb_le in L. destruct Hc as [<-|[]]. auto.
    + destruct Hc.
  - intros (item & Hin & Hs & ->). exists item. rewrite <- list_elem_of_In.
    split; [assumption|].
    destruct (score_item code_changes test_results_now services item)
      as [score ev] eqn:E.
    cbn [fst snd] in *. apply Nat.leb_le in Hs. rewrite Hs. now left.
Qed.

(** C1: for every detected item the score is the sum of 40 (file evidence),
    30 (the type of the task is among the code changes), 20 (there are
    recent test results) and 10 (the dev-mode indicator is set) over the
    signals that are present, and a completion with the item's task and
    that score is reported exactly when the score is at least 60. *)
Theorem confidence_is_weighted_sum now code_changes test_results_now services
    detected item :
  item ∈ detected ->
  fst (score_item code_changes test_results_now services item)
  = weight (negb (Nat.eqb (length (d_evidence item)) 0)) 40
    + weight (bool_decide (is_Some (code_changes !! d_type item))) 30
    + weight (negb (Nat.eqb (length test_results_now) 0)) 20
    + weight (truthy (services !! lit "dev_mode")) 10
  /\
  ((exists c,
      c ∈ combine_signals now code_changes test_results_now services detected /\
      task c = d_task item /\
      confidence c = fst (score_item code_changes test_results_now services item))
   <-> 60 <= fst (score_item code_changes test_results_now services item)).
Proof.
  intros Hin. split; [apply score_item_sum|]. split.
  - intros (c & Hc & _ & Hconf).
    apply combine_signals_elem in Hc as (item' & _ & Hs & ->).
    cbn in Hconf. lia.
  - intros Hs. eexists. split.
    + apply combine_signals_elem. exists item. eauto.
    + split; reflexivity.
Qed.

Lemma confidence_is_weighted_sum_witness :
  fst (score_item sample_changes [] ∅ sample_item)
  = weight (negb (Nat.eqb (length (d_evidence sample_item)) 0)) 40
    + weight (bool_decide (is_Some (sample_changes !! d_type sample_item))) 30
    + weight (negb (Nat.eqb (length (@nil pystr)) 0)) 20
    + weight (truthy ((∅ : indicators) !! lit "dev_mode")) 10
  /\
  ((exists c,
      c ∈ combine_signals sample_now sample_changes [] ∅ [sample_item] /\
      task c = d_task sample_item /\
      confidence c = fst (score_item sample_changes [] ∅ sample_item))
   <-> 60 <= fst (score_item sample_changes [] ∅ sample_item)).
Proof.
  apply (confidence_is_weighted_sum sample_now sample_changes [] ∅
           [sample_item] sample_item).
  apply list_elem_of_here.
Defined.

End ProgressDetectorProofs.
(** * Further properties of the progress detector *)

Module ProgressDetectorMore.
Import ProgressDetector ReFacts.

Ltac eval_lits_in_goal :=
  repeat match goal with
         | |- context [lit ?s] =>
             let v := eval vm_compute in (lit s) in change (lit s) with v
         end.

(** ** [detect_code_changes] *)

Section CodeChanges.
Context (md5 : pystr -> pystr) (t : tree) (st0 : state).

Definition step (acc : gmap pystr (list pystr) * state) (fp : pystr * pystr)
    : gmap pystr (list pystr) * state :=
  check_watched md5 t (fst fp) acc (snd fp).

Lemma detect_code_changes_fold :
  detect_code_changes md5 t st0 = fold_left step watched_pairs (∅, st0).
Proof.
  unfold detect_code_changes, watched_pairs, watched.
  cbn [fold_left flat_map map app]. unfold step. cbn [fst snd]. reflexivity.
Qed.

Lemma full_path_inj p q : full_path p = full_path q -> p = q.
Proof. unfold full_path. intros H. by apply app_inv_head, app_inv_head in H. Qed.

(** What holds after the pairs [done] have been handled. *)
Record inv (done : list (pystr * pystr))
    (acc : gmap pystr (list pystr) * state) : Prop := {
  inv_reported : forall feature l,
    fst acc !! feature = Some l ->
    l ≠ [] /\ forall p, p ∈ l -> (feature, p) ∈ done /\ changed_since md5 t st0 p;
  inv_origin : forall k,
    file_hashes (snd acc) !! k = file_hashes st0 !! k \/
    exists p f, k = full_path p /\ find_entry p t = Some f /\
                file_hashes (snd acc) !! k = Some (md5 (text f));
  inv_fresh : forall feature p f,
    (feature, p) ∈ done -> find_entry p t = Some f ->
    file_hashes (snd acc) !! full_path p = Some (md5 (text f));
  inv_kept : forall k,
    (forall feature p, (feature, p) ∈ done -> k ≠ full_path p) ->
    file_hashes (snd acc) !! k = file_hashes st0 !! k;
  inv_fields :
    test_results (snd acc) = test_results st0 /\
    last_check (snd acc) = last_check st0 /\
    completed_tasks (snd acc) = completed_tasks st0
}.

Lemma inv_init : inv [] (∅, st0).
Proof.
  split; cbn [fst snd].
  - intros feature l. by rewrite lookup_empty.
  - intros k. by left.
  - by intros ??? ?%elem_of_nil.
  - done.
  - done.
Qed.

Lemma inv_step done acc feature p :
  inv done acc -> inv (done ++ [(feature, p)]) (step acc (feature, p)).
Proof.
  intros [Hrep Horig Hfresh Hkept Hfields]. destruct acc as [changes st].
  unfold step, check_watched, get_file_hash. cbn [fst snd] in *.
  destruct (find_entry p t) as [f|] eqn:Hf.
  2:{ split; cbn [fst snd]; [| exact Horig | | | exact Hfields].
      - intros feature' l Hl. destruct (Hrep _ _ Hl) as [Hne Hall].
        split; [done|]. intros q Hq. destruct (Hall q Hq). split; [|done].
        apply elem_of_app. by left.
      - intros feature' q f' [Hin|Hin%list_elem_of_singleton]%elem_of_app Hq.
        + by eapply Hfresh.
        + injection Hin as -> ->. congruence.
      - intros k Hk. apply Hkept. intros feature' q Hin. apply (Hk feature' q), elem_of_app.
        by left. }
  set (changes' := match file_hashes st !! full_path p with
                   | Some old =>
                       if negb (Nat.eqb (length old) 0)
                          && bool_decide (md5 (text f) ≠ old)
                       then <[feature := default [] (changes !! feature) ++ [p]]> changes
                       else changes
                   | None => changes
                   end).
  assert (Hold : forall feature' l, changes !! feature' = Some l ->
            l ≠ [] /\ forall q, q ∈ l ->
              (feature', q) ∈ done ++ [(feature, p)] /\ changed_since md5 t st0 q).
  { intros feature' l Hl. destruct (Hrep _ _ Hl) as [Hne Hall].
    split; [done|]. intros q Hq. destruct (Hall q Hq). split; [|done].
    apply elem_of_app. by left. }
  split; cbn [fst snd file_hashes set_hash test_results last_check completed_tasks].
  - intros feature' l. subst changes'.
    destruct (file_hashes st !! full_path p) as [old|] eqn:Hst; [|by apply Hold].
    destruct (negb (Nat.eqb (length old) 0) && bool_decide (md5 (text f) ≠ old))
      eqn:Hc; [|by apply Hold].
    apply andb_true_iff in Hc as [Hlen Hne%bool_decide_eq_true].
    destruct (decide (feature = feature')) as [<-|Hfe].
    2:{ rewrite lookup_insert_ne by done. by apply Hold. }
    rewrite lookup_insert_eq. intros [= <-]. split.
    { by destruct (default [] (changes !! feature)). }
    intros q [Hq|Hq%list_elem_of_singleton]%elem_of_app.
    + destruct (changes !! feature) as [l0|] eqn:Hl0; [|by apply elem_of_nil in Hq].
      by apply (Hold feature l0).
    + subst q. split; [apply elem_of_app; right; by apply list_elem_of_singleton|].
      exists f, old. split; [done|]. split.
      * destruct (Horig (full_path p)) as [E|(q & g & Eq & Hg & Hh)]; [congruence|].
        apply full_path_inj in Eq as <-. congruence.
      * split; [|done]. intros ->. done.
  - intros k. destruct (decide (k = full_path p)) as [->|Hk].
    + right. exists p, f. by rewrite lookup_insert_eq.
    + rewrite lookup_insert_ne by done. apply Horig.
  - intros feature' q f' [Hin|Hin%list_elem_of_singleton]%elem_of_app Hq.
    + destruct (decide (full_path p = full_path q)) as [E|E].
      * apply full_path_inj in E as <-. rewrite lookup_insert_eq. congruence.
      * rewrite lookup_insert_ne by done. by eapply Hfresh.
    + injection Hin as -> ->. rewrite lookup_insert_eq. congruence.
  - intros k Hk. rewrite lookup_insert_ne.
    + apply Hkept. intros feature' q Hin. apply (Hk feature' q), elem_of_app. by left.
    + intros E. eapply Hk; [|by symmetry]. apply elem_of_app. right.
      by apply list_elem_of_singleton.
  - done.
Qed.

Lemma inv_fold pairs done acc :
  inv done acc -> inv (done ++ pairs) (fold_left step pairs acc).
Proof.
  revert done acc. induction pairs as [|[feature p] pairs IH]; intros done acc H.
  - by rewrite app_nil_r.
  - cbn [fold_left]. rewrite (app_assoc done [(feature, p)] pairs) || rewrite cons_middle, app_assoc.
    apply IH. by apply inv_step.
Qed.

Lemma detect_code_changes_inv :
  inv watched_pairs (detect_code_changes md5 t st0).
Proof. rewrite detect_code_changes_fold. apply (inv_fold _ []), inv_init. Qed.

End CodeChanges.

(** X6: [detect_code_changes] reports a file only when it exists and a
    non-empty hash that differs from its current digest was stored for it
    before the call; every reported list is non-empty and holds watched
    files of that feature.  On a state without stored hashes (the first
    run) nothing is reported. *)
Theorem detect_reports_only_changed md5 t st :
  (forall feature l,
     fst (detect_code_changes md5 t st) !! feature = Some l ->
     l ≠ [] /\
     forall p, p ∈ l -> (feature, p) ∈ watched_pairs /\ changed_since md5 t st p) /\
  (file_hashes st = ∅ -> fst (detect_code_changes md5 t st) = ∅).
Proof.
  pose proof (detect_code_changes_inv md5 t st) as [Hrep _ _ _ _].
  split; [exact Hrep|]. intros Hempty. apply map_empty. intros feature.
  destruct (fst (detect_code_changes md5 t st) !! feature) as [l|] eqn:Hl; [|done].
  destruct (Hrep _ _ Hl) as [Hne Hall]. destruct l as [|p l]; [done|].
  destruct (Hall p) as [_ (f & old & _ & Hold & _)]; [by left|].
  by rewrite Hempty, lookup_empty in Hold.
Qed.

(** X7: after [detect_code_changes] the hash stored for every watched file
    that exists is its current digest; the hash stored under every other
    path (a path that is not watched, or a watched file that is missing) is
    as before, and so are the other fields of the state; a second call
    right after it reports nothing. *)
Theorem detect_refreshes_hashes md5 t st :
  (forall feature p f,
     (feature, p) ∈ watched_pairs -> find_entry p t = Some f ->
     file_hashes (snd (detect_code_changes md5 t st)) !! full_path p
     = Some (md5 (text f))) /\
  (forall k,
     (forall feature p f,
        (feature, p) ∈ watched_pairs -> find_entry p t = Some f ->
        k ≠ full_path p) ->
     file_hashes (snd (detect_code_changes md5 t st)) !! k = file_hashes st !! k) /\
  test_results (snd (detect_code_changes md5 t st)) = test_results st /\
  last_check (snd (detect_code_changes md5 t st)) = last_check st /\
  completed_tasks (snd (detect_code_changes md5 t st)) = completed_tasks st /\
  fst (detect_code_changes md5 t (snd (detect_code_changes md5 t st))) = ∅.
Proof.
  pose proof (detect_code_changes_inv md5 t st) as [_ Horig Hfresh Hkept Hfields].
  split; [exact Hfresh|]. split.
  { intros k Hk.
    destruct (decide (Exists (fun fp => k = full_path (snd fp)) watched_pairs))
      as [Hex|Hnex].
    - apply Exists_exists in Hex as ([feature p] & Hin & ->). cbn [snd] in *.
      destruct (Horig (full_path p)) as [E|(q & g & Eq & Hg & _)]; [done|].
      apply full_path_inj in Eq as <-. exfalso. by eapply (Hk feature p g).
    - apply Hkept. intros feature p Hin ->. apply Hnex, Exists_exists.
      by exists (feature, p). }
  destruct Hfields as (H1 & H2 & H3). repeat (split; [done|]).
  apply map_empty. intros feature.
  pose proof (detect_code_changes_inv md5 t (snd (detect_code_changes md5 t st)))
    as [Hrep _ _ _ _].
  destruct (fst (detect_code_changes md5 t (snd (detect_code_changes md5 t st)))
              !! feature) as [l|] eqn:Hl; [|done].
  destruct (Hrep _ _ Hl) as [Hne Hall]. destruct l as [|p l]; [done|].
  destruct (Hall p) as [Hin (f & old & Hf & Hold & _ & Hdiff)]; [by left|].
  rewrite (Hfresh _ _ _ Hin Hf) in Hold. congruence.
Qed.

Definition package_json : pystr := lit "frontend/package.json".

Lemma watched_pairs_split :
  watched_pairs
  = [ (lit "excel_export", lit "backend/routes/admin/leaveAdmin.js");
      (lit "excel_export", lit "backend/services/LeaveExcelService.js");
      (lit "excel_export", lit "frontend/src/components/UnifiedLeaveOverview.tsx");
      (lit "virtual_scroll", lit "frontend/src/components/VirtualScrollList.tsx");
      (lit "virtual_scroll", package_json);
      (lit "charts", lit "frontend/src/components/LeaveCharts.tsx") ]
    ++ [ (lit "charts", package_json) ].
Proof. reflexivity. Qed.

(** X8: frontend/package.json is listed under virtual_scroll and under
    charts, but it is never reported under charts: when the loop reaches
    it the second time, the hash stored for it is already the current
    one. *)
Theorem package_json_never_counts_for_charts md5 t st l :
  fst (detect_code_changes md5 t st) !! lit "charts" = Some l ->
  package_json ∉ l.
Proof.
  rewrite detect_code_changes_fold, watched_pairs_split, fold_left_app.
  match goal with
  | |- context [fold_left (step md5 t) ?pre (∅, st)] =>
      pose proof (inv_fold md5 t st pre [] (∅, st) (inv_init md5 t st)) as Hinv;
      destruct (fold_left (step md5 t) pre (∅, st)) as [changes st6]
  end.
  cbn [fold_left].
  destruct Hinv as [Hrep _ Hfresh _ _]. cbn [fst snd app] in Hrep, Hfresh.
  assert (Hold : forall l0, changes !! lit "charts" = Some l0 -> package_json ∉ l0).
  { intros l0 Hl0 Hin. destruct (Hrep _ _ Hl0) as [_ Hall].
    destruct (Hall _ Hin) as [Hmem _]. revert Hmem.
    apply (bool_decide_unpack _). vm_compute. reflexivity. }
  unfold step, check_watched, get_file_hash. cbn [fst snd].
  destruct (find_entry package_json t) as [f|] eqn:Hf; [|exact (Hold l)].
  rewrite (Hfresh (lit "virtual_scroll") package_json f);
    [|apply (bool_decide_unpack _); vm_compute; reflexivity|done].
  rewrite (bool_decide_eq_false_2 (md5 (text f) ≠ md5 (text f))) by (intros H; by apply H).
  rewrite andb_false_r. cbn [fst]. exact (Hold l).
Qed.

Lemma detect_reports_only_changed_witness :
  changed_since sample_md5 sample_tree sample_state package_json.
Proof.
  refine (proj2 (proj2 (proj1 (detect_reports_only_changed sample_md5 sample_tree
            sample_state) (lit "virtual_scroll") [package_json] _) package_json _)).
  - vm_compute. reflexivity.
  - apply list_elem_of_here.
Defined.

Lemma package_json_never_counts_for_charts_witness :
  fst (detect_code_changes sample_md5 sample_changed_tree sample_stale_state)
    !! lit "virtual_scroll" = Some [package_json] /\
  fst (detect_code_changes sample_md5 sample_changed_tree sample_stale_state)
    !! lit "charts" = Some [lit "frontend/src/components/LeaveCharts.tsx"] /\
  package_json ∉ [lit "frontend/src/components/LeaveCharts.tsx"].
Proof.
  split; [vm_compute; reflexivity|]. split; [vm_compute; reflexivity|].
  apply (package_json_never_counts_for_charts sample_md5 sample_changed_tree
           sample_stale_state).
  vm_compute. reflexivity.
Defined.

(** ** [analyze_plan_files] *)

Lemma dict_set_elem {V} k (v : V) d k' v' :
  (k', v') ∈ dict_set k v d -> (k' = k /\ v' = v) \/ (k', v') ∈ d.
Proof.
  induction d as [|[k0 v0] d IH]; cbn [dict_set].
  - intros [= -> ->]%list_elem_of_singleton. by left.
  - case_bool_decide as E.
    + intros [[= -> ->]|H]%elem_of_cons; [left; by subst|right; by right].
    + intros [[= -> ->]|H]%elem_of_cons; [right; by left|].
      destruct (IH H) as [?|?]; [by left|right; by right].
Qed.

Lemma dict_set_keys {V} k (v : V) d :
  map fst (dict_set k v d) = map fst d \/
  ((k ∉ map fst d) /\ map fst (dict_set k v d) = map fst d ++ [k]).
Proof.
  induction d as [|[k0 v0] d IH]; cbn [dict_set map fst app].
  - right. split; [apply not_elem_of_nil|done].
  - case_bool_decide as E; cbn [map fst app]; [by left|].
    destruct IH as [->|[Hk ->]]; [by left|right].
    split; [|done]. rewrite not_elem_of_cons. split; [congruence|done].
Qed.

Lemma dict_set_NoDup {V} k (v : V) d :
  NoDup (map fst d) -> NoDup (map fst (dict_set k v d)).
Proof.
  intros H. destruct (dict_set_keys k v d) as [->|[Hk ->]]; [done|].
  apply NoDup_app. split; [done|]. split.
  - intros x Hx [= ->]%list_elem_of_singleton. contradiction.
  - apply NoDup_singleton.
Qed.

(** The entry that [classify] stores for a task. *)
Definition classified (lower : pystr -> pystr) (task : pystr) (pat : task_pattern)
    : Prop :=
  (mentions_excel task = true /\
   pat = {| tp_files := [lit "LeaveExcelService"; lit "exportExcel"];
            tp_type := lit "excel_export" |}) \/
  (mentions_excel task = false /\ mentions_scroll lower task = true /\
   pat = {| tp_files := [lit "VirtualScroll"; lit "react-window"];
            tp_type := lit "virtual_scroll" |}) \/
  (mentions_excel task = false /\ mentions_scroll lower task = false /\
   mentions_test lower task = true /\
   pat = {| tp_files := [lit ".test."; lit ".spec."]; tp_type := lit "test" |}).

Definition tracked_ok (lower : pystr -> pystr) (t : tree)
    (tp : list (pystr * task_pattern)) : Prop :=
  NoDup (map fst tp) /\
  forall task pat, (task, pat) ∈ tp -> classified lower task pat /\ pending_in t task.

Lemma classify_ok lower t task tp :
  pending_in t task -> tracked_ok lower t tp ->
  tracked_ok lower t (classify lower task tp).
Proof.
  intros Hp [Hnd Hall]. unfold classify.
  fold (mentions_excel task). fold (mentions_scroll lower task).
  fold (mentions_test lower task).
  destruct (mentions_excel task) eqn:He;
    [|destruct (mentions_scroll lower task) eqn:Hs;
      [|destruct (mentions_test lower task) eqn:Ht]];
    try (split; [by apply dict_set_NoDup|];
         intros task' pat' [[-> ->]|Hin]%dict_set_elem; [|by apply Hall];
         split; [|done]; unfold classified; rewrite ?He, ?Hs, ?Ht; tauto).
  done.
Qed.

Lemma classify_fold_ok lower t tasks tp :
  (forall task, task ∈ tasks -> pending_in t task) ->
  tracked_ok lower t tp ->
  tracked_ok lower t (fold_left (fun tp task => classify lower task tp) tasks tp).
Proof.
  revert tp. induction tasks as [|task tasks IH]; intros tp Hp Hok; [done|].
  cbn [fold_left]. apply IH.
  - intros task' H. apply Hp. by right.
  - apply classify_ok; [|done]. apply Hp. by left.
Qed.

Lemma analyze_plan_files_ok lower t :
  tracked_ok lower t (analyze_plan_files lower t).
Proof.
  unfold analyze_plan_files.
  assert (H : forall files tp,
    (forall f, f ∈ files -> f ∈ plan_files t) -> tracked_ok lower t tp ->
    tracked_ok lower t
      (fold_left
         (fun task_patterns plan_file =>
            let content := default [] (text <$> find_entry plan_file t) in
            fold_left (fun tp task => classify lower task tp)
              (findall pending_re content) task_patterns)
         files tp)).
  { induction files as [|f files IH]; intros tp Hf Hok; [done|].
    cbn [fold_left]. apply IH; [intros g Hg; apply Hf; by right|].
    apply classify_fold_ok; [|done].
    intros task Htask. exists f. split; [apply Hf; by left|done]. }
  apply H; [done|]. split; [apply NoDup_nil_2|]. by intros ?? ?%elem_of_nil.
Qed.

Lemma dict_set_key_in {V} k (v : V) d : k ∈ map fst (dict_set k v d).
Proof.
  induction d as [|[k0 v0] d IH]; cbn [dict_set]; [by left|].
  case_bool_decide as E; cbn [map fst]; [subst; by left|by right].
Qed.

Lemma dict_set_key_mono {V} k (v : V) d k' :
  k' ∈ map fst d -> k' ∈ map fst (dict_set k v d).
Proof.
  destruct (dict_set_keys k v d) as [->|[_ ->]]; [done|].
  intros H. apply elem_of_app. by left.
Qed.

Definition mentions_any (lower : pystr -> pystr) (task : pystr) : bool :=
  mentions_excel task || mentions_scroll lower task || mentions_test lower task.

Lemma classify_key_mono lower task tp k :
  k ∈ map fst tp -> k ∈ map fst (classify lower task tp).
Proof.
  intros H. unfold classify.
  repeat match goal with
         | |- context [if ?b then _ else _] => destruct b
         end; try by apply dict_set_key_mono.
  done.
Qed.

Lemma classify_tracks lower task tp :
  mentions_any lower task = true -> task ∈ map fst (classify lower task tp).
Proof.
  unfold mentions_any, mentions_excel, mentions_scroll, mentions_test, classify.
  intros H.
  destruct (contains (lit "Excel") task || contains (lit "excel") task);
    [apply dict_set_key_in|].
  destruct (contains (lit "virtual") (lower task)
            || contains (lit "scroll") (lower task));
    [apply dict_set_key_in|].
  destruct (contains (lit "test") (lower task)); [apply dict_set_key_in|].
  discriminate.
Qed.

Lemma classify_fold_mono lower tasks tp k :
  k ∈ map fst tp ->
  k ∈ map fst (fold_left (fun tp task => classify lower task tp) tasks tp).
Proof.
  revert tp. induction tasks as [|task tasks IH]; intros tp H; [done|].
  cbn [fold_left]. by apply IH, classify_key_mono.
Qed.

Lemma classify_fold_tracks lower tasks tp task :
  task ∈ tasks -> mentions_any lower task = true ->
  task ∈ map fst (fold_left (fun tp task => classify lower task tp) tasks tp).
Proof.
  revert tp. induction tasks as [|task' tasks IH]; intros tp Hin Hm.
  - by apply elem_of_nil in Hin.
  - cbn [fold_left]. apply elem_of_cons in Hin as [->|Hin].
    + by apply classify_fold_mono, classify_tracks.
    + by apply IH.
Qed.

Lemma analyze_plan_files_tracks lower t task :
  pending_in t task -> mentions_any lower task = true ->
  task ∈ map fst (analyze_plan_files lower t).
Proof.
  intros (plan_file & Hfile & Htask) Hm. unfold analyze_plan_files.
  generalize (@nil (pystr * task_pattern)). revert Hfile.
  generalize (plan_files t). intros files.
  induction files as [|f files IH]; intros Hin tp.
  - by apply elem_of_nil in Hin.
  - cbn [fold_left]. apply elem_of_cons in Hin as [<-|Hin]; [|by apply IH].
    match goal with
    | |- _ ∈ map fst (fold_left ?step files ?acc) =>
        assert (Hmono : forall fs acc', task ∈ map fst acc' ->
                          task ∈ map fst (fold_left step fs acc'))
    end.
    { induction fs as [|g fs IHfs]; intros acc' H; [done|].
      cbn [fold_left]. by apply IHfs, classify_fold_mono. }
    by apply Hmono, classify_fold_tracks.
Qed.

(** X9: the tasks that [analyze_plan_files] tracks are exactly the texts of
    unchecked boxes of plan files that mention a keyword, each text once.
    A task that mentions Excel is tracked as excel_export whatever else it
    mentions; one that mentions virtual or scroll (in any case) and not
    Excel as virtual_scroll; one that mentions only test as test; a task
    that mentions none of them is not tracked. *)
Theorem tracked_tasks_are_classified lower t :
  NoDup (map fst (analyze_plan_files lower t)) /\
  (forall task pat,
     (task, pat) ∈ analyze_plan_files lower t ->
     pending_in t task /\
     ((mentions_excel task = true /\
       pat = {| tp_files := [lit "LeaveExcelService"; lit "exportExcel"];
                tp_type := lit "excel_export" |}) \/
      (mentions_excel task = false /\ mentions_scroll lower task = true /\
       pat = {| tp_files := [lit "VirtualScroll"; lit "react-window"];
                tp_type := lit "virtual_scroll" |}) \/
      (mentions_excel task = false /\ mentions_scroll lower task = false /\
       mentions_test lower task = true /\
       pat = {| tp_files := [lit ".test."; lit ".spec."]; tp_type := lit "test" |}))) /\
  (forall task,
     pending_in t task ->
     mentions_excel task || mentions_scroll lower task || mentions_test lower task
     = true ->
     exists pat, (task, pat) ∈ analyze_plan_files lower t).
Proof.
  destruct (analyze_plan_files_ok lower t) as [Hnd Hall]. split; [done|]. split.
  - intros task pat Hin. destruct (Hall _ _ Hin). by split.
  - intros task Hp Hm.
    pose proof (analyze_plan_files_tracks lower t task Hp Hm) as Hin.
    apply list_elem_of_fmap in Hin as ([task' pat] & -> & Hin). by exists pat.
Qed.

Lemma tracked_tasks_are_classified_witness :
  exists pat,
    (lit "Excel export test", pat) ∈ analyze_plan_files ascii_lower sample_plan_tree /\
    tp_type pat = lit "excel_export".
Proof.
  destruct (tracked_tasks_are_classified ascii_lower sample_plan_tree)
    as (_ & Hclass & Htracked).
  destruct (Htracked (lit "Excel export test")) as [pat Hin].
  - exists (lit "export-plan.md").
    split; apply (bool_decide_unpack _); vm_compute; reflexivity.
  - vm_compute. reflexivity.
  - exists pat. split; [exact Hin|].
    destruct (Hclass _ _ Hin) as [_ [[_ ->]|[[E _]|[E _]]]];
      [reflexivity|discriminate E|discriminate E].
Defined.

(** ** The signals together *)

Lemma watched_features feature p :
  (feature, p) ∈ watched_pairs ->
  feature ∈ [lit "excel_export"; lit "virtual_scroll"; lit "charts"].
Proof.
  rewrite watched_pairs_split. cbn [app]. intros H.
  repeat (apply elem_of_cons in H as [[= -> ->]|H];
          [apply (bool_decide_unpack _); vm_compute; reflexivity|]).
  by apply elem_of_nil in H.
Qed.

(** X10: the features under which code changes are reported are
    excel_export, virtual_scroll and charts, and the types of the tracked
    tasks are excel_export, virtual_scroll and test.  So a change under
    charts adds to no score, and a task of type test never gets the 30
    points of a related code change: its score is at most 70. *)
Theorem code_change_points_reach md5 lower t st :
  (forall feature l,
     fst (detect_code_changes md5 t st) !! feature = Some l ->
     feature ∈ [lit "excel_export"; lit "virtual_scroll"; lit "charts"]) /\
  (forall task pat,
     (task, pat) ∈ analyze_plan_files lower t ->
     tp_type pat ∈ [lit "excel_export"; lit "virtual_scroll"; lit "test"]) /\
  (forall test_results_now services item,
     d_type item = lit "test" ->
     fst (score_item (fst (detect_code_changes md5 t st)) test_results_now
            services item) <= 70).
Proof.
  pose proof (detect_code_changes_inv md5 t st) as [Hrep _ _ _ _].
  assert (Hfeat : forall feature l,
    fst (detect_code_changes md5 t st) !! feature = Some l ->
    feature ∈ [lit "excel_export"; lit "virtual_scroll"; lit "charts"]).
  { intros feature l Hl. destruct (Hrep _ _ Hl) as [Hne Hall].
    destruct l as [|p l]; [done|]. destruct (Hall p) as [Hin _]; [by left|].
    by eapply watched_features. }
  split; [exact Hfeat|]. split.
  - intros task pat Hin.
    destruct (analyze_plan_files_ok lower t) as [_ Hall].
    destruct (Hall _ _ Hin) as [[(_ & ->)|[(_ & _ & ->)|(_ & _ & _ & ->)]] _];
      cbn [tp_type]; apply (bool_decide_unpack _); vm_compute; reflexivity.
  - intros tr sv item Htype.
    rewrite ProgressDetectorProofs.score_item_sum, Htype.
    destruct (fst (detect_code_changes md5 t st) !! lit "test") as [l|] eqn:Hl.
    { apply Hfeat in Hl. revert Hl. apply (bool_decide_unpack _).
      vm_compute. reflexivity. }
    rewrite bool_decide_eq_false_2 by (by intros [? [=]]).
    unfold weight.
    destruct (negb _), (negb _), (truthy _); cbn; lia.
Qed.

Lemma detect_implementation_elem t now tp item :
  item ∈ detect_implementation t now tp ->
  exists task pat file_pattern e,
    (task, pat) ∈ tp /\ file_pattern ∈ tp_files pat /\ e ∈ t /\
    (starts_with (lit "frontend" ++ lit "/") (fst e) = true \/
     starts_with (lit "backend" ++ lit "/") (fst e) = true) /\
    contains file_pattern (basename (fst e)) = true /\
    (stamp now - one_day < mtime (snd e))%Z /\
    item = {| d_task := task;
              d_evidence := lit "File created/modified: " ++ basename (fst e);
              d_type := tp_type pat |}.
Proof.
  unfold detect_implementation. rewrite list_elem_of_In, in_flat_map.
  intros ([task pat] & Hin & Hitem). rewrite in_flat_map in Hitem.
  destruct Hitem as (fp & Hfp & Hitem).
  destruct (List.find _ _) as [e|] eqn:Hfind; [|destruct Hitem].
  destruct Hitem as [<-|[]]. apply find_some in Hfind as [He Hrecent].
  exists task, pat, fp, e. rewrite <- !list_elem_of_In in *.
  split; [done|]. split; [done|].
  apply Z.ltb_lt in Hrecent. unfold glob_rec in He.
  rewrite elem_of_app, !list_elem_of_In, !filter_In, !andb_true_iff,
    <- !list_elem_of_In in He.
  destruct He as [(? & ? & ?)|(? & ? & ?)]; repeat split; auto.
Qed.

Lemma score_item_evidence code_changes test_results_now services item :
  d_evidence item ≠ [] ->
  60 <= fst (score_item code_changes test_results_now services item) ->
  exists rest,
    snd (score_item code_changes test_results_now services item)
    = d_evidence item :: rest /\ rest ≠ [].
Proof.
  intros Hev. unfold score_item.
  destruct (d_evidence item) as [|c ev] eqn:E; [done|]. cbn [length Nat.eqb negb].
  destruct (code_changes !! d_type item) as [files|],
           (negb (Nat.eqb (length test_results_now) 0)),
           (truthy (services !! lit "dev_mode")); cbn [fst snd app];
    intros Hs; try (eexists; split; [reflexivity|done]); lia.
Qed.

(** X11: every completion that [infer_completions] returns belongs to a
    tracked task, has a confidence between 60 and 100, and its evidence
    starts with the recently modified file, followed by at least one more
    signal: a running development server alone (50 points with the file)
    is never enough. *)
Theorem completions_rest_on_a_file md5 lower now w st c :
  c ∈ completions_of (infer_completions md5 lower now w st) ->
  60 <= confidence c <= 100 /\
  (exists pat, (task c, pat) ∈ analyze_plan_files lower (entries w)) /\
  (exists name rest,
     evidence c = (lit "File created/modified: " ++ name) :: rest /\ rest ≠ []) /\
  timestamp c = stamp now.
Proof.
  unfold infer_completions.
  destruct (detect_code_changes md5 (entries w) st) as [code_changes st1].
  destruct (check_running_services (ss_tuln w) (ps_aux w)) as [services|];
    cbn [bind completions_of]; [|by intros ?%elem_of_nil].
  intros (item & Hitem & Hs & ->)%ProgressDetectorProofs.combine_signals_elem.
  apply detect_implementation_elem in Hitem
    as (tk & pat & fp & e & Hin & _ & _ & _ & _ & _ & ->).
  cbn [confidence task evidence timestamp]. split; [|split; [|split; [|done]]].
  - split; [done|]. rewrite ProgressDetectorProofs.score_item_sum. unfold weight.
    destruct (negb _), (bool_decide _), (negb _), (truthy _); cbn; lia.
  - by exists pat.
  - edestruct score_item_evidence as (rest & Hrest & Hne); [|exact Hs|].
    + cbn [d_evidence]. by eval_lits_in_goal.
    + cbn [d_evidence] in Hrest. eauto.
Qed.

Lemma completions_rest_on_a_file_witness :
  60 <= confidence sample_completion <= 100.
Proof.
  refine (proj1 (completions_rest_on_a_file sample_md5 ascii_lower sample_now
            sample_world (load_state sample_world) sample_completion _)).
  vm_compute. apply list_elem_of_here.
Defined.

End ProgressDetectorMore.
(** * The detector: services, report and run *)

Module ProgressDetectorRun.
Import ProgressDetector ReFacts.

Ltac eval_lits_in_goal :=
  repeat match goal with
         | |- context [lit ?s] =>
             let v := eval vm_compute in (lit s) in change (lit s) with v
         end.

(** ** [check_running_services] *)

Lemma check_running_services_value ss ps :
  check_running_services ss ps
  = Returns
      match ss with
      | Failed => ∅
      | Completed output =>
          let d1 : indicators :=
            if contains (lit ":3727") output
            then <[lit "frontend" := VStr (lit "running")]> ∅ else ∅ in
          let d2 : indicators :=
            if contains (lit ":5455") output || contains (lit ":5456") output
            then <[lit "backend" := VStr (lit "running")]> d1 else d1 in
          match ps with
          | Failed => d2
          | Completed ps_output =>
              if contains (lit "npm run dev") ps_output
                 || contains (lit "vite") ps_output
              then <[lit "dev_mode" := VBool true]> d2 else d2
          end
      end.
Proof.
  destruct ss as [output|]; [|reflexivity].
  unfold check_running_services, try_except_pass, mbind, probe_bind, seq,
    subprocess_run, when, setitem, ret.
  destruct (contains (lit ":3727") output),
           (contains (lit ":5455") output || contains (lit ":5456") output);
    (destruct ps as [ps_output|];
     [destruct (contains (lit "npm run dev") ps_output
                || contains (lit "vite") ps_output)|]); reflexivity.
Qed.

Ltac lookups :=
  eval_lits_in_goal;
  repeat (rewrite lookup_insert_eq || rewrite lookup_insert_ne by done
          || rewrite lookup_empty).


(** ** [update_plan_files] *)

Lemma strftime_dot_plain now : Forall plain (strftime_dot now).
Proof.
  unfold strftime_dot.
  repeat match goal with
         | |- Forall plain (_ ++ _) => apply Forall_app; split
         | |- Forall plain (fmt_Y _) => apply digits_plain, zpad_digits
         | |- Forall plain (fmt_m _) => apply digits_plain, zpad_digits
         | |- Forall plain (fmt_d _) => apply digits_plain, zpad_digits
         | |- Forall plain (lit _) =>
             eval_lits_in_goal; repeat (apply Forall_cons_2; [done|]);
             apply Forall_nil_2
         end.
Qed.

Definition checkbox_template (now : datetime) : list titem :=
  map TChr (lit "- [x] ")
  ++ TGroup 1 :: map TChr (32%N :: lit "✅ (" ++ strftime_dot now ++ lit " 자동 감지)").

Lemma checkbox_replacement_parses now :
  parse_template 1 (checkbox_replacement now) = Returns (checkbox_template now).
Proof.
  unfold checkbox_replacement, checkbox_template.
  change (lit "- [x] \1 ✅ (") with (lit "- [x] " ++ lit "\1" ++ 32%N :: lit "✅ (").
  replace ((lit "- [x] " ++ lit "\1" ++ 32%N :: lit "✅ (")
           ++ strftime_dot now ++ lit " 자동 감지)")
    with (lit "- [x] " ++ lit "\1"
          ++ 32%N :: (lit "✅ (" ++ strftime_dot now ++ lit " 자동 감지)"))
    by (by rewrite <- !app_assoc).
  apply parse_box_template; [| |done].
  - eval_lits_in_goal. repeat (apply Forall_cons_2; [done|]). apply Forall_nil_2.
  - apply Forall_app; split; [|apply Forall_app; split];
      [|apply strftime_dot_plain|];
      eval_lits_in_goal; repeat (apply Forall_cons_2; [done|]); apply Forall_nil_2.
Qed.

Lemma rewrite_checkboxes_returns now task_text content :
  rewrite_checkboxes now task_text content
  = Returns (sub_go (checkbox_re task_text) (checkbox_template now) true 0 content).
Proof.
  unfold rewrite_checkboxes, sub.
  change (groups (checkbox_re task_text)) with 1.
  by rewrite checkbox_replacement_parses.
Qed.

Lemma write_entry_keys p f (t : tree) :
  p ∈ map fst t -> map fst (write_entry p f t) = map fst t.
Proof.
  induction t as [|[q g] t IH]; cbn [map fst write_entry].
  - by intros ?%elem_of_nil.
  - case_bool_decide as E; cbn [map fst]; [done|].
    intros [?|H]%elem_of_cons; [congruence|]. by rewrite IH.
Qed.

Lemma find_entry_write_ne p q f (t : tree) :
  q ≠ p -> find_entry q (write_entry p f t) = find_entry q t.
Proof.
  intros Hne. induction t as [|[r g] t IH]; cbn [find_entry write_entry].
  - by rewrite bool_decide_eq_false_2 by congruence.
  - case_bool_decide as E; cbn [find_entry].
    + subst r. by rewrite !bool_decide_eq_false_2 by congruence.
    + by rewrite IH.
Qed.

Lemma plan_files_keys (t t' : tree) :
  map fst t' = map fst t -> plan_files t' = plan_files t.
Proof. unfold plan_files, glob_root. by intros ->. Qed.

Lemma plan_files_exist (t : tree) p : p ∈ plan_files t -> p ∈ map fst t.
Proof.
  unfold plan_files, glob_root.
  rewrite elem_of_app, !list_elem_of_In, !filter_In. tauto.
Qed.

(** What the loops of [update_plan_files] keep, started on the tree [t]
    with the completions [cs]. *)
Definition kept (t : tree) (cs : list completion) (acc : tree * list update)
    : Prop :=
  map fst (fst acc) = map fst t /\
  (forall p, p ∉ plan_files t -> find_entry p (fst acc) = find_entry p t) /\
  (forall u, u ∈ snd acc ->
     u_file u ∈ plan_files t /\
     exists c, c ∈ cs /\ u_task u = task c /\ u_confidence u = confidence c).

Lemma update_plan_file_kept now t cs c files acc :
  c ∈ cs -> (forall f, f ∈ files -> f ∈ plan_files t) -> kept t cs acc ->
  exists acc',
    fold_left (update_plan_file now c) files (Returns acc) = Returns acc'
    /\ kept t cs acc'.
Proof.
  intros Hc. revert acc. induction files as [|f files IH]; intros acc Hf Hk.
  - by exists acc.
  - cbn [fold_left]. unfold update_plan_file at 2. destruct acc as [t1 ups].
    cbn [bind]. destruct Hk as (Hkeys & Hframe & Hups). cbn [fst snd] in *.
    destruct (search _ _).
    + rewrite rewrite_checkboxes_returns. cbn [bind].
      apply IH; [intros g Hg; apply Hf; by right|].
      assert (Hfin : f ∈ plan_files t) by (apply Hf; by left).
      split; [|split]; cbn [fst snd].
      * rewrite write_entry_keys; [done|]. rewrite Hkeys.
        by apply plan_files_exist.
      * intros p Hp. rewrite find_entry_write_ne; [by apply Hframe|].
        intros ->. contradiction.
      * intros u [Hu|Hu%list_elem_of_singleton]%elem_of_app; [by apply Hups|].
        subst u. cbn. split; [done|]. by exists c.
    + apply IH; [intros g Hg; apply Hf; by right|done].
Qed.

Lemma update_plan_files_kept now t done cs acc :
  (forall c, c ∈ cs -> c ∈ done) -> kept t done acc ->
  exists acc',
    fold_left
      (fun acc c =>
         bind acc (fun '(t1, updates) =>
           fold_left (update_plan_file now c) (plan_files t1)
             (Returns (t1, updates))))
      cs (Returns acc) = Returns acc'
    /\ kept t done acc'.
Proof.
  revert acc. induction cs as [|c cs IH]; intros acc Hin Hk.
  - by exists acc.
  - cbn [fold_left bind]. destruct acc as [t1 ups].
    destruct (update_plan_file_kept now t done c (plan_files t1) (t1, ups))
      as (acc' & -> & Hk'); [apply Hin; by left| |done|].
    + intros f. destruct Hk as (Hkeys & _). cbn [fst] in Hkeys.
      by rewrite (plan_files_keys t t1).
    + apply IH; [intros c' Hc'; apply Hin; by right|done].
Qed.


End ProgressDetectorRun.
(** * The detector: what a run persists *)

Module ProgressDetectorState.
Import ProgressDetector ReFacts.

Lemma infer_completions_returns md5 lower now w st :
  exists completions,
    infer_completions md5 lower now w st
    = Returns (completions, snd (detect_code_changes md5 (entries w) st)).
Proof.
  unfold infer_completions.
  destruct (detect_code_changes md5 (entries w) st) as [code_changes st1].
  rewrite ProgressDetectorRun.check_running_services_value. cbn [bind snd].
  by eexists.
Qed.

Lemma update_plan_files_returns now t cs :
  exists t' updates, update_plan_files now t cs = Returns (t', updates).
Proof.
  destruct (ProgressDetectorRun.update_plan_files_kept now t cs cs (t, []))
    as ([t' ups] & H & _); [done| |by exists t', ups].
  split; [done|]. split; [done|]. by intros u ?%elem_of_nil.
Qed.


End ProgressDetectorState.
(** * The detector: rewriting the checkboxes *)

Module ProgressDetectorRewrite.
Import ProgressDetector ReFacts ProgressDetectorRun.

(** ** Lines *)

Definition no_nl (s : pystr) : Prop := Forall (fun c => c ≠ nl) s.

(** What follows a line: the end of the text, or a newline. *)
Definition line_end (tail : pystr) : Prop :=
  tail = [] \/ exists rest, tail = nl :: rest.

Definition after_nl (tail : pystr) : pystr :=
  match tail with
  | [] => []
  | _ :: rest => rest
  end.

Lemma split_lines_first s :
  exists line tail,
    s = line ++ tail /\ no_nl line /\ line_end tail /\
    split_lines s
    = line :: match tail with [] => [] | _ :: rest => split_lines rest end.
Proof.
  induction s as [|c s (line & tail & Hs & Hline & Htail & Hsplit)].
  - exists [], []. split; [done|]. split; [apply Forall_nil_2|].
    split; [by left|done].
  - destruct (N.eqb_spec c nl) as [->|Hc].
    + exists [], (nl :: s). split; [done|]. split; [apply Forall_nil_2|].
      split; [right; eauto|]. cbn [split_lines]. by rewrite N.eqb_refl.
    + exists (c :: line), tail. split; [by rewrite Hs|].
      split; [by apply Forall_cons_2|]. split; [done|].
      cbn [split_lines]. apply N.eqb_neq in Hc. by rewrite Hc, Hsplit.
Qed.

Lemma without_newlines_no_nl s : no_nl s -> without_newlines s = s.
Proof.
  induction 1 as [|c s Hc _ IH]; [done|].
  unfold without_newlines in *. cbn [List.filter].
  apply N.eqb_neq in Hc. by rewrite Hc, IH.
Qed.

Lemma without_newlines_app a b :
  without_newlines (a ++ b) = without_newlines a ++ without_newlines b.
Proof. apply List.filter_app. Qed.

Lemma starts_with_line q line tail :
  no_nl q -> line_end tail ->
  starts_with q (line ++ tail) = starts_with q line.
Proof.
  intros Hq Htail. revert line. induction Hq as [|a q Ha _ IH]; intros line.
  - done.
  - destruct line as [|c line]; cbn [app starts_with].
    + destruct Htail as [->|[rest ->]]; [done|]. cbn [starts_with].
      apply N.eqb_neq in Ha. by rewrite Ha.
    + by rewrite IH.
Qed.

Lemma starts_with_split a b s :
  starts_with (a ++ b) s = starts_with a s && starts_with b (drop (length a) s).
Proof.
  revert s. induction a as [|x a IH]; intros s; cbn [app starts_with length].
  - by rewrite drop_0.
  - destruct s as [|c s]; [done|]. cbn [drop]. by rewrite IH, andb_assoc.
Qed.

(** ** One match of the checkbox pattern *)

(** The lazy ".*?" before the end-of-line alternative runs to the end of
    the line. *)
Lemma rep_lazy_dot_line {R} (k : bool -> pystr -> caps -> option R)
    body tail c v :
  no_nl body ->
  (forall b x s' c', x ≠ nl -> k b (x :: s') c' = None) ->
  (forall b, k b tail c = Some v) ->
  forall b, rep false Dot 0 None b (body ++ tail) c k = Some v.
Proof.
  intros Hbody Hk Hv. induction Hbody as [|x body Hx _ IH]; intros b.
  - cbn [app]. destruct tail; cbn [rep]; unfold or_else; by rewrite Hv.
  - cbn [app rep]. unfold or_else. rewrite Hk by done.
    cbn [in_cls more]. apply N.eqb_neq in Hx. rewrite Hx. cbn [negb andb].
    apply IH.
Qed.

Lemma take_before {A} (a t : list A) :
  take (length (a ++ t) - length t) (a ++ t) = a.
Proof.
  rewrite length_app.
  replace (length a + length t - length t) with (length a) by lia.
  by rewrite take_app_length.
Qed.

Lemma match_checkbox task_text bos body tail :
  no_nl body -> line_end tail ->
  match_at (checkbox_re task_text) bos
    (lit "- [ ] " ++ take 50 task_text ++ body ++ tail)
  = Some (after_nl tail, <[1 := take 50 task_text ++ body]> ∅).
Proof.
  intros Hbody Htail. unfold match_at, checkbox_re. cbn [Re.run].
  rewrite starts_with_app, drop_app_length.
  rewrite starts_with_app, drop_app_length.
  apply rep_lazy_dot_line; [done| |].
  - intros b x s' c' Hx. cbn [Re.run starts_with]. unfold or_else.
    apply N.eqb_neq in Hx. rewrite (N.eqb_sym nl x), Hx. cbn [andb].
    by destruct s'.
  - intros b. rewrite (app_assoc (take 50 task_text)), take_before.
    destruct Htail as [->|[rest ->]]; cbn [Re.run starts_with after_nl]; [done|].
    by rewrite N.eqb_refl.
Qed.

Lemma match_checkbox_none task_text bos s :
  starts_with (lit "- [ ] " ++ take 50 task_text) s = false ->
  match_at (checkbox_re task_text) bos s = None.
Proof.
  rewrite starts_with_split. unfold match_at, checkbox_re. cbn [Re.run].
  destruct (starts_with (lit "- [ ] ") s); [|done]. cbn [andb]. by intros ->.
Qed.

(** The pattern does not look at the beginning-of-string flag. *)
Lemma match_checkbox_bos task_text bos s :
  match_at (checkbox_re task_text) bos s
  = match_at (checkbox_re task_text) false s.
Proof.
  unfold match_at, checkbox_re. cbn [Re.run].
  destruct (starts_with (lit "- [ ] ") s); [|done].
  change (Nat.eqb (length (lit "- [ ] ")) 0) with false.
  by rewrite andb_false_r.
Qed.

Lemma starts_with_box_nil p : starts_with (lit "- [ ] " ++ p) [] = false.
Proof. done. Qed.

Lemma starts_with_box_nl p rest :
  starts_with (lit "- [ ] " ++ p) (nl :: rest) = false.
Proof. done. Qed.

Lemma drop_box (z : pystr) : drop 6 (lit "- [ ] " ++ z) = z.
Proof. done. Qed.

Lemma no_nl_digits l : Forall ascii_digit l -> no_nl l.
Proof.
  intros H. eapply Forall_impl; [exact H|]. unfold ascii_digit, nl. lia.
Qed.

Lemma no_nl_box p : no_nl p -> no_nl (lit "- [ ] " ++ p).
Proof.
  intros Hp. apply Forall_app; split; [|done].
  eval_lits_in_goal. repeat (apply Forall_cons_2; [done|]). apply Forall_nil_2.
Qed.

(** ** [re.sub] with the checkbox pattern *)

Section Sub.
Context (now : datetime) (task_text : pystr).
Hypothesis prefix_no_nl : no_nl (take 50 task_text).

#[local] Abbreviation r := (checkbox_re task_text).
#[local] Abbreviation t := (checkbox_template now).
#[local] Abbreviation prefix := (take 50 task_text).
#[local] Abbreviation suffix := (checkbox_suffix now).

Lemma sub_go_nil bos : sub_go r t bos 0 [] = [].
Proof.
  cbn [sub_go]. by rewrite match_checkbox_none by apply starts_with_box_nil.
Qed.

Lemma sub_go_bos bos s : sub_go r t bos 0 s = sub_go r t false 0 s.
Proof. destruct s; cbn [sub_go]; by rewrite match_checkbox_bos. Qed.

Lemma sub_go_skip k s bos : sub_go r t bos k s = sub_go r t false 0 (drop k s).
Proof.
  revert s bos. induction k as [|k IH]; intros s bos.
  - rewrite drop_0. apply sub_go_bos.
  - destruct s as [|c s]; [by rewrite drop_nil, sub_go_nil|].
    cbn [sub_go drop]. apply IH.
Qed.

Lemma expand_chars l t' whole c :
  expand (map TChr l ++ t') whole c = l ++ expand t' whole c.
Proof. induction l as [|x l IH]; cbn [map app expand]; by rewrite ?IH. Qed.

Lemma expand_checkbox whole g :
  expand t whole (<[1 := g]> ∅) = lit "- [x] " ++ g ++ suffix.
Proof.
  unfold checkbox_template, checkbox_suffix.
  rewrite expand_chars. cbn [expand]. rewrite lookup_insert_eq. cbn [default].
  rewrite <- (app_nil_r (map TChr _)), expand_chars. cbn [expand].
  by rewrite app_nil_r.
Qed.

(** One line of the text: the first place of the line where the pattern
    matches is rewritten and takes the rest of the line with its newline;
    a line without such a place is copied with its newline. *)
Lemma sub_go_line line tail bos :
  no_nl line -> line_end tail ->
  sub_go r t bos 0 (line ++ tail)
  = mark_line prefix suffix line
    ++ (if contains (lit "- [ ] " ++ prefix) line then [] else take 1 tail)
    ++ sub_go r t false 0 (after_nl tail).
Proof.
  intros Hline Htail. revert bos.
  induction Hline as [|x line Hx Hline IH]; intros bos.
  - cbn [app mark_line contains]. rewrite starts_with_box_nil. cbn [orb app].
    destruct Htail as [->|[rest ->]]; cbn [after_nl take].
    + by rewrite !sub_go_nil.
    + cbn [sub_go]. by rewrite match_checkbox_none by apply starts_with_box_nl.
  - cbn [contains mark_line].
    destruct (starts_with (lit "- [ ] " ++ prefix) (x :: line)) eqn:E.
    + cbn [orb].
      apply starts_with_spec in E as [body E].
      assert (Hbody : no_nl body).
      { assert (H : no_nl (x :: line)) by by apply Forall_cons_2.
        rewrite E in H. apply Forall_app in H as [_ H]. done. }
      rewrite E, <- !app_assoc.
      rewrite drop_box.
      assert (Hm := match_checkbox task_text bos body tail Hbody Htail).
      remember (lit "- [ ] " ++ prefix ++ body ++ tail) as s eqn:Hs.
      assert (Hlen : length s = 6 + length prefix + length body + length tail).
      { rewrite Hs, !length_app. change (length (lit "- [ ] ")) with 6. lia. }
      destruct s as [|c s'].
      { cbn in Hlen. lia. }
      cbn [sub_go]. rewrite Hm, expand_checkbox.
      assert (Hskip : drop (length (c :: s') - length (after_nl tail) - 1) s'
                      = after_nl tail).
      { assert (Hd : drop (6 + length prefix + length body)
                       (lit "- [ ] " ++ prefix ++ body ++ tail) = tail).
        { rewrite !app_assoc, <- !(app_assoc _ _ tail).
          replace (6 + length prefix + length body)
            with (length ((lit "- [ ] " ++ prefix) ++ body))
            by (rewrite !length_app; change (length (lit "- [ ] ")) with 6; lia).
          rewrite <- !app_assoc. rewrite !app_assoc.
          by rewrite drop_app_length. }
        rewrite <- Hs in Hd.
        destruct Htail as [->|[rest ->]]; cbn [after_nl length] in *.
        - rewrite Nat.sub_0_r. cbn [Nat.sub]. rewrite Nat.sub_0_r.
          apply drop_ge. cbn in Hlen. lia.
        - replace (S (length s') - length rest - 1)
            with (6 + length prefix + length body) by lia.
          remember (6 + length prefix + length body) as n eqn:Hn.
          change (drop n s') with (drop (S n) (c :: s')).
          replace (S n) with (n + 1) by lia.
          by rewrite <- drop_drop, Hd. }
      destruct (Nat.eqb_spec (length (c :: s') - length (after_nl tail)) 0)
        as [Hz|_].
      { exfalso. destruct Htail as [->|[rest ->]]; cbn [after_nl length] in *; lia. }
      rewrite sub_go_skip, Hskip. by rewrite <- !app_assoc.
    + cbn [orb app sub_go].
      rewrite match_checkbox_none; [by rewrite IH|].
      change (x :: line ++ tail) with ((x :: line) ++ tail).
      rewrite starts_with_line; [done|by apply no_nl_box|done].
Qed.

(** The whole text, line after line. *)
Lemma sub_go_text s bos :
  sub_go r t bos 0 s = mark_text prefix suffix (split_lines s).
Proof.
  remember (length s) as n eqn:Hn. revert s bos Hn.
  induction n as [n IH] using lt_wf_ind. intros s bos ->.
  destruct (split_lines_first s) as (line & tail & -> & Hline & Htail & ->).
  rewrite sub_go_line by done.
  destruct Htail as [->|[rest ->]]; cbn [after_nl take].
  - rewrite sub_go_nil, app_nil_r. cbn [mark_text].
    destruct (contains _ line); by rewrite app_nil_r.
  - rewrite (IH (length rest)) with (bos := false) (s := rest);
      [|rewrite length_app; cbn [length]; lia|done].
    destruct (split_lines_first rest) as (l' & tail' & _ & _ & _ & ->).
    done.
Qed.

Lemma no_nl_suffix : no_nl suffix.
Proof.
  unfold checkbox_suffix, strftime_dot, no_nl.
  repeat match goal with
         | |- Forall _ (_ ++ _) => apply Forall_app; split
         | |- Forall _ (fmt_Y _) => apply no_nl_digits, zpad_digits
         | |- Forall _ (fmt_m _) => apply no_nl_digits, zpad_digits
         | |- Forall _ (fmt_d _) => apply no_nl_digits, zpad_digits
         | |- Forall _ (lit _) =>
             eval_lits_in_goal; repeat (apply Forall_cons_2; [done|]);
             apply Forall_nil_2
         end.
Qed.

Lemma no_nl_mark_line line : no_nl line -> no_nl (mark_line prefix suffix line).
Proof.
  induction 1 as [|x line Hx Hline IH]; cbn [mark_line].
  - rewrite starts_with_box_nil. apply Forall_nil_2.
  - destruct (starts_with _ (x :: line)).
    + apply Forall_app; split; [|apply Forall_app; split].
      * eval_lits_in_goal. repeat (apply Forall_cons_2; [done|]).
        apply Forall_nil_2.
      * apply Forall_drop. by apply Forall_cons_2.
      * apply no_nl_suffix.
    + by apply Forall_cons_2.
Qed.

(** Without the terminators the result is the lines, each marked. *)
Lemma mark_text_flat lines :
  Forall no_nl lines ->
  without_newlines (mark_text prefix suffix lines)
  = concat (map (mark_line prefix suffix) lines).
Proof.
  induction 1 as [|l ls Hl Hls IH]; [done|].
  cbn [map concat]. destruct ls as [|l' ls].
  - cbn [mark_text map concat]. rewrite app_nil_r.
    by apply without_newlines_no_nl, no_nl_mark_line.
  - change (mark_text prefix suffix (l :: l' :: ls))
      with (mark_line prefix suffix l
            ++ (if contains (lit "- [ ] " ++ prefix) l then [] else [nl])
            ++ mark_text prefix suffix (l' :: ls)).
    rewrite !without_newlines_app, IH.
    rewrite without_newlines_no_nl by by apply no_nl_mark_line.
    by destruct (contains _ l).
Qed.

Lemma mark_line_unmatched line :
  contains (lit "- [ ] " ++ prefix) line = false ->
  mark_line prefix suffix line = line.
Proof.
  induction line as [|x line IH]; cbn [contains mark_line].
  - by rewrite starts_with_box_nil.
  - intros [-> H]%orb_false_iff. by rewrite IH.
Qed.

End Sub.

Lemma split_lines_no_nl s : Forall no_nl (split_lines s).
Proof.
  remember (length s) as n eqn:Hn. revert s Hn.
  induction n as [n IH] using lt_wf_ind. intros s ->.
  destruct (split_lines_first s) as (line & tail & -> & Hline & Htail & ->).
  apply Forall_cons_2; [done|].
  destruct Htail as [->|[rest ->]]; [apply Forall_nil_2|].
  apply (IH (length rest)); [rewrite length_app; cbn [length]; lia|done].
Qed.

(** [split_lines] loses nothing: the lines joined by newlines are the text. *)
Lemma join_split_lines s : join [nl] (split_lines s) = s.
Proof.
  induction s as [|c s IH]; [done|]. cbn [split_lines].
  destruct (split_lines_first s) as (l & tail & _ & _ & _ & Hsplit).
  rewrite Hsplit in IH |- *.
  rewrite <- IH. destruct (c =? nl)%N eqn:Hc.
  - by apply N.eqb_eq in Hc as ->.
  - destruct tail as [|c' rest]; [done|].
    by destruct (split_lines_first rest) as (l' & tail' & _ & _ & _ & ->).
Qed.

Lemma not_elem_no_nl (s : pystr) : nl ∉ s -> no_nl s.
Proof. intros H. apply Forall_forall. by intros c Hc ->. Qed.

(** The rewrite as a whole: it never raises, and its result is the text
    with its lines marked. *)
Lemma rewrite_checkboxes_lines now task_text content :
  nl ∉ take 50 task_text ->
  rewrite_checkboxes now task_text content
  = Returns (mark_text (take 50 task_text) (checkbox_suffix now)
               (split_lines content)).
Proof.
  intros H%not_elem_no_nl.
  by rewrite rewrite_checkboxes_returns, sub_go_text.
Qed.






End ProgressDetectorRewrite.
(** * Properties of the progress synchronisation *)

Module ProgressSyncProofs.
Import ProgressSync ReFacts.

(** ** The scan of the plan files *)

Lemma fnmatch_feat_is_plan name :
  fnmatch (lit "FEAT-") (lit "-plan.md") name = true ->
  fnmatch [] (lit "-plan.md") name = true.
Proof.
  unfold fnmatch. rewrite andb_true_iff. intros [_ H].
  cbn [starts_with andb length drop]. by apply ends_with_drop in H.
Qed.

Lemma read_elem name content (d : dir) :
  NoDup (map fst d) -> (name, content) ∈ d -> read name d = Some content.
Proof.
  induction d as [|[n t] d IH]; cbn [map fst read]; [by intros _ ?%elem_of_nil|].
  rewrite NoDup_cons, elem_of_cons. intros [Hn Hd] [[= <- <-]|Hin].
  - by rewrite bool_decide_eq_true_2.
  - rewrite bool_decide_eq_false_2; [by apply IH|].
    intros ->. apply Hn. change name with (fst (name, content)).
    by apply list_elem_of_fmap_2.
Qed.

Definition completed_of (now : datetime) (d : dir) (plan_file : pystr)
    : list completed_task :=
  map (fun task => {| c_file := plan_file; c_task := task;
                      c_date := strftime_dot now |})
    (findall completed_re (default [] (read plan_file d))).

Definition in_progress_of (d : dir) (plan_file : pystr) : list in_progress_task :=
  map (fun task => {| p_file := plan_file; p_task := task |})
    (findall in_progress_re (default [] (read plan_file d))).

Lemma scan_fold now d fs self :
  fold_left (extract_progress now d) fs self
  = {| completed_tasks := completed_tasks self ++ flat_map (completed_of now d) fs;
       in_progress_tasks := in_progress_tasks self ++ flat_map (in_progress_of d) fs |}.
Proof.
  revert self. induction fs as [|f fs IH]; intros self; cbn [fold_left flat_map].
  - rewrite !app_nil_r. by destruct self.
  - rewrite IH. cbn. by rewrite !app_assoc.
Qed.

Lemma scan_plan_files_lists now d :
  completed_tasks (scan_plan_files now d init)
    = flat_map (completed_of now d) (plan_files d) /\
  in_progress_tasks (scan_plan_files now d init)
    = flat_map (in_progress_of d) (plan_files d).
Proof. unfold scan_plan_files. by rewrite scan_fold. Qed.

Lemma count_plan_files (d : dir) name :
  NoDup (map fst d) -> name ∈ map fst d ->
  fnmatch (lit "FEAT-") (lit "-plan.md") name = true ->
  count name (plan_files d) = 2.
Proof.
  intros Hnd Hin Hfeat. unfold plan_files, glob.
  rewrite count_app, !count_filter, Hfeat, (fnmatch_feat_is_plan _ Hfeat).
  by rewrite count_NoDup.
Qed.

Lemma count_detector_plan_files (t : ProgressDetector.tree) name :
  NoDup (map fst t) -> name ∈ map fst t ->
  contains (lit "/") name = false ->
  fnmatch (lit "FEAT-") (lit "-plan.md") name = true ->
  count name (ProgressDetector.plan_files t) = 2.
Proof.
  intros Hnd Hin Hroot Hfeat.
  unfold ProgressDetector.plan_files, ProgressDetector.glob_root.
  pose proof (fnmatch_feat_is_plan _ Hfeat) as Hplan.
  unfold fnmatch in Hfeat, Hplan.
  rewrite count_app, !count_filter, Hroot. cbn [negb andb].
  rewrite Hfeat, Hplan. by rewrite count_NoDup.
Qed.

(** C9: a plan file whose name matches FEAT-*-plan.md also matches
    *-plan.md; it is twice in the list of files that [scan_plan_files]
    scans (and in the list of the detector's [analyze_plan_files]); each of
    its checked tasks and of its in-progress tasks occurs in the aggregated
    lists twice as often as in the file; and the lengths of the two lists,
    which are the reported counts and the terms of the percentage, add up
    the tasks of the files of that list, this file twice. *)
Theorem feat_plan_is_counted_twice now (d : dir) name content :
  NoDup (map fst d) ->
  (name, content) ∈ d ->
  fnmatch (lit "FEAT-") (lit "-plan.md") name = true ->
  fnmatch [] (lit "-plan.md") name = true /\
  count name (plan_files d) = 2 /\
  (forall t : ProgressDetector.tree,
     NoDup (map fst t) -> name ∈ map fst t ->
     contains (lit "/") name = false ->
     count name (ProgressDetector.plan_files t) = 2) /\
  (forall task,
     count {| c_file := name; c_task := task; c_date := strftime_dot now |}
       (completed_tasks (scan_plan_files now d init))
     = 2 * count task (findall completed_re content)) /\
  (forall task,
     count {| p_file := name; p_task := task |}
       (in_progress_tasks (scan_plan_files now d init))
     = 2 * count task (findall in_progress_re content)) /\
  length (completed_tasks (scan_plan_files now d init))
  = sum_list (map (fun f => length (findall completed_re (default [] (read f d))))
                (plan_files d)) /\
  length (in_progress_tasks (scan_plan_files now d init))
  = sum_list (map (fun f => length (findall in_progress_re (default [] (read f d))))
                (plan_files d)).
Proof.
  intros Hnd Hin Hfeat.
  assert (Hname : name ∈ map fst d).
  { change name with (fst (name, content)). by apply list_elem_of_fmap_2. }
  pose proof (count_plan_files d name Hnd Hname Hfeat) as Hcount.
  destruct (scan_plan_files_lists now d) as [-> ->].
  split; [by apply fnmatch_feat_is_plan|]. split; [done|].
  split; [intros t Ht Hn Hroot; by apply count_detector_plan_files|].
  split; [|split; [|split]].
  - intros task. unfold completed_of.
    rewrite (count_flat_map_keyed
               (fun f task => {| c_file := f; c_task := task;
                                 c_date := strftime_dot now |})
               (fun f => findall completed_re (default [] (read f d)))).
    + by rewrite Hcount, (read_elem name content).
    + by intros ???? [= -> ->].
  - intros task. unfold in_progress_of.
    rewrite (count_flat_map_keyed
               (fun f task => {| p_file := f; p_task := task |})
               (fun f => findall in_progress_re (default [] (read f d)))).
    + by rewrite Hcount, (read_elem name content).
    + by intros ???? [= -> ->].
  - rewrite length_flat_map. unfold completed_of.
    f_equal. apply map_ext. intros f. by rewrite length_map.
  - rewrite length_flat_map. unfold in_progress_of.
    f_equal. apply map_ext. intros f. by rewrite length_map.
Qed.

Lemma feat_plan_is_counted_twice_witness :
  fnmatch (lit "FEAT-") (lit "-plan.md") (lit "FEAT-export-plan.md") = true /\
  count (lit "FEAT-export-plan.md") (plan_files sample_dir) = 2.
Proof.
  split; [reflexivity|].
  refine (proj1 (proj2 (feat_plan_is_counted_twice sample_today sample_dir
            (lit "FEAT-export-plan.md")
            (lit "- [x] Excel export" ++ [nl] ++ lit "- [ ] Charts 🔄" ++ [nl])
            _ _ _))).
  - apply (bool_decide_unpack (NoDup (map fst sample_dir))). vm_compute. reflexivity.
  - apply list_elem_of_here.
  - reflexivity.
Defined.

End ProgressSyncProofs.
